(** * OpenHiker [scripts/code_stats.py]: line classifiers and aggregation

    A shallow embedding of the statistics script: the seven line classifiers,
    the [PlatformStats] aggregate properties, the percentile helpers, the
    per-language aggregation and [main].

    Conventions of the embedding.
    - A Python [str] is the list of the code points of its characters
      ([list N]); [str "..."] turns an ASCII literal into such a list.
    - A Python [int] is a [Z]; a Python [float] is a binary64 value, a
      [spec_float] of Rocq's specification of IEEE 754 arithmetic.
    - A [for] loop over a list is a [fold_left] of its body over the loop's
      local variables; [continue] ends the body.
    - A call that may raise returns a [result]. *)

From Stdlib Require Import ZArith List Bool String Ascii Lia Permutation.
From Stdlib Require Import SpecFloat FloatOps.
From stdpp Require Import base list gmap sorting.
Import ListNotations.

Local Open Scope Z_scope.
Local Open Scope bool_scope.

(** ** Python strings *)

Abbreviation pystr := (list N).

(** An ASCII literal as a Python string. *)
Definition str (s : string) : pystr :=
  map N_of_ascii (list_ascii_of_string s).

(** [str.isspace] on one character: the code points CPython's
    [_PyUnicode_IsWhitespace] accepts. *)
Definition isspace (c : N) : bool :=
  ((9 <=? c) && (c <=? 13))%N || ((28 <=? c) && (c <=? 32))%N
  || (c =? 133)%N || (c =? 160)%N || (c =? 5760)%N
  || ((8192 <=? c) && (c <=? 8202))%N
  || (c =? 8232)%N || (c =? 8233)%N || (c =? 8239)%N || (c =? 8287)%N
  || (c =? 12288)%N.

Fixpoint lstrip (s : pystr) : pystr :=
  match s with
  | c :: s' => if isspace c then lstrip s' else s
  | [] => []
  end.

Definition rstrip (s : pystr) : pystr := rev (lstrip (rev s)).

(** [s.strip()] *)
Definition strip (s : pystr) : pystr := rstrip (lstrip s).

(** [not s] for a string: true on the empty string. *)
Definition is_empty (s : pystr) : bool :=
  match s with [] => true | _ => false end.

(** [s.startswith(p)] *)
Fixpoint startswith (p s : pystr) : bool :=
  match p, s with
  | [], _ => true
  | _ :: _, [] => false
  | a :: p', b :: s' => (a =? b)%N && startswith p' s'
  end.

(** [p in s] *)
Fixpoint contains (p s : pystr) : bool :=
  startswith p s
  || match s with
     | [] => false
     | _ :: s' => contains p s'
     end.

(** [s.count(sub)] for a non-empty [sub]: occurrences are counted from left
    to right without overlap, so after a match the scan resumes
    [len(sub)] characters further; [skip] is the number of characters still
    to pass over. *)
Fixpoint count_from (sub : pystr) (skip : nat) (s : pystr) : Z :=
  match s with
  | [] => 0
  | _ :: s' =>
      match skip with
      | S k => count_from sub k s'
      | O =>
          if startswith sub s
          then 1 + count_from sub (Nat.pred (length sub)) s'
          else count_from sub 0 s'
      end
  end.

Definition count (sub s : pystr) : Z := count_from sub 0 s.

(** [len(s)] *)
Definition len {A} (l : list A) : Z := Z.of_nat (length l).

(** ** Exceptions *)

Inductive exn : Type :=
| TypeError
| OverflowError
| ValueError
| IndexError
| SystemExit (code : Z).

Inductive result (A : Type) : Type :=
| Ok (a : A)
| Raise (e : exn).
Arguments Ok {A} a.
Arguments Raise {A} e.

Definition bind {A B} (r : result A) (k : A -> result B) : result B :=
  match r with
  | Ok a => k a
  | Raise e => Raise e
  end.

Notation "'let!' x ':=' r 'in' k" := (bind r (fun x => k))
  (at level 10, x name, r at level 100, k at level 200).

(** A loop whose body may raise. *)
Fixpoint for_each {S A} (body : S -> A -> result S) (l : list A) (s : S)
  : result S :=
  match l with
  | [] => Ok s
  | a :: l' => let! s' := body s a in for_each body l' s'
  end.

(** ** [FileStats] *)

Record FileStats : Type := mkFileStats {
  path : pystr;
  total_lines : Z;
  code_lines : Z;
  comment_lines : Z;
  docstring_lines : Z;
  blank_lines : Z;
  language : pystr
}.

(** [FileStats(path=p, language=l)]: the counters take their default 0. *)
Definition new_FileStats (p l : pystr) : FileStats :=
  mkFileStats p 0 0 0 0 0 l.

Definition set_path (p : pystr) (s : FileStats) : FileStats :=
  mkFileStats p (total_lines s) (code_lines s) (comment_lines s)
    (docstring_lines s) (blank_lines s) (language s).

Definition set_total_lines (n : Z) (s : FileStats) : FileStats :=
  mkFileStats (path s) n (code_lines s) (comment_lines s)
    (docstring_lines s) (blank_lines s) (language s).

(** [stats.code_lines += 1] and its three siblings. *)
Definition incr_code (s : FileStats) : FileStats :=
  mkFileStats (path s) (total_lines s) (code_lines s + 1) (comment_lines s)
    (docstring_lines s) (blank_lines s) (language s).

Definition incr_comment (s : FileStats) : FileStats :=
  mkFileStats (path s) (total_lines s) (code_lines s) (comment_lines s + 1)
    (docstring_lines s) (blank_lines s) (language s).

Definition incr_docstring (s : FileStats) : FileStats :=
  mkFileStats (path s) (total_lines s) (code_lines s) (comment_lines s)
    (docstring_lines s + 1) (blank_lines s) (language s).

Definition incr_blank (s : FileStats) : FileStats :=
  mkFileStats (path s) (total_lines s) (code_lines s) (comment_lines s)
    (docstring_lines s) (blank_lines s + 1) (language s).

(** ** The brace-comment classifiers *)

(** The local variables of the Swift and of the Kotlin loop. *)
Record BraceLoop : Type := mkBraceLoop {
  stats : FileStats;
  in_block_comment : bool;
  in_doc_block : bool
}.

Definition on_stats (f : FileStats -> FileStats) (st : BraceLoop) : BraceLoop :=
  mkBraceLoop (f (stats st)) (in_block_comment st) (in_doc_block st).

Definition set_in_block_comment (b : bool) (st : BraceLoop) : BraceLoop :=
  mkBraceLoop (stats st) b (in_doc_block st).

Definition set_in_doc_block (b : bool) (st : BraceLoop) : BraceLoop :=
  mkBraceLoop (stats st) (in_block_comment st) b.

(** The body of the loop of [classify_swift_lines]. *)
Definition swift_body (st : BraceLoop) (line : pystr) : BraceLoop :=
  let stripped := strip line in
  if is_empty stripped then on_stats incr_blank st
  else if in_block_comment st || in_doc_block st then
    let st :=
      if in_doc_block st then on_stats incr_docstring st
      else on_stats incr_comment st in
    if contains (str "*/") stripped
    then set_in_doc_block false (set_in_block_comment false st)
    else st
  else if startswith (str "/**") stripped then
    let st := set_in_doc_block true st in
    let st := on_stats incr_docstring st in
    if contains (str "*/") (drop 3 stripped)
    then set_in_doc_block false st
    else st
  else if startswith (str "/*") stripped then
    let st := set_in_block_comment true st in
    let st := on_stats incr_comment st in
    if contains (str "*/") (drop 2 stripped)
    then set_in_block_comment false st
    else st
  else if startswith (str "///") stripped then on_stats incr_docstring st
  else if startswith (str "//") stripped then on_stats incr_comment st
  else on_stats incr_code st.

Definition classify_swift_lines (lines : list pystr) : FileStats :=
  let stats0 := new_FileStats (str "") (str "Swift") in
  let stats0 := set_total_lines (len lines) stats0 in
  stats (fold_left swift_body lines (mkBraceLoop stats0 false false)).

(** The body of the loop of [classify_kotlin_lines]. *)
Definition kotlin_body (st : BraceLoop) (line : pystr) : BraceLoop :=
  let stripped := strip line in
  if is_empty stripped then on_stats incr_blank st
  else if in_block_comment st || in_doc_block st then
    let st :=
      if in_doc_block st then on_stats incr_docstring st
      else on_stats incr_comment st in
    if contains (str "*/") stripped
    then set_in_doc_block false (set_in_block_comment false st)
    else st
  else if startswith (str "/**") stripped then
    let st := set_in_doc_block true st in
    let st := on_stats incr_docstring st in
    if contains (str "*/") (drop 3 stripped)
    then set_in_doc_block false st
    else st
  else if startswith (str "/*") stripped then
    let st := set_in_block_comment true st in
    let st := on_stats incr_comment st in
    if contains (str "*/") (drop 2 stripped)
    then set_in_block_comment false st
    else st
  else if startswith (str "///") stripped then on_stats incr_docstring st
  else if startswith (str "//") stripped then on_stats incr_comment st
  else on_stats incr_code st.

Definition classify_kotlin_lines (lines : list pystr) : FileStats :=
  let stats0 := new_FileStats (str "") (str "Kotlin") in
  let stats0 := set_total_lines (len lines) stats0 in
  stats (fold_left kotlin_body lines (mkBraceLoop stats0 false false)).

(** ** The Python classifier *)

(** The two docstring delimiters: three double quotes, three single quotes. *)
Definition triple_double : pystr := [34; 34; 34]%N.
Definition triple_single : pystr := str "'''".

(** The local variables of the loop of [classify_python_lines];
    [docstring_delimiter] is [None] or a string. *)
Record PythonLoop : Type := mkPythonLoop {
  py_stats : FileStats;
  in_docstring : bool;
  docstring_delimiter : option pystr
}.

(** [d in s] where [d] may be [None]: Python raises [TypeError] then. *)
Definition in_str (d : option pystr) (s : pystr) : result bool :=
  match d with
  | Some d => Ok (contains d s)
  | None => Raise TypeError
  end.

(** The body of the loop of [classify_python_lines]. *)
Definition python_body (st : PythonLoop) (line : pystr) : result PythonLoop :=
  let stripped := strip line in
  if is_empty stripped then
    Ok (mkPythonLoop (incr_blank (py_stats st)) (in_docstring st)
          (docstring_delimiter st))
  else if in_docstring st then
    let stats1 := incr_docstring (py_stats st) in
    let! closes := in_str (docstring_delimiter st) stripped in
    if closes then Ok (mkPythonLoop stats1 false None)
    else Ok (mkPythonLoop stats1 (in_docstring st) (docstring_delimiter st))
  else if startswith triple_double stripped || startswith triple_single stripped
  then
    let delimiter := take 3 stripped in
    if (2 <=? count delimiter stripped) && (3 <? len stripped) then
      Ok (mkPythonLoop (incr_docstring (py_stats st)) (in_docstring st)
            (docstring_delimiter st))
    else
      Ok (mkPythonLoop (incr_docstring (py_stats st)) true (Some delimiter))
  else if startswith (str "#") stripped then
    Ok (mkPythonLoop (incr_comment (py_stats st)) (in_docstring st)
          (docstring_delimiter st))
  else
    Ok (mkPythonLoop (incr_code (py_stats st)) (in_docstring st)
          (docstring_delimiter st)).

Definition classify_python_lines (lines : list pystr) : result FileStats :=
  let stats0 := new_FileStats (str "") (str "Python") in
  let stats0 := set_total_lines (len lines) stats0 in
  let! st := for_each python_body lines (mkPythonLoop stats0 false None) in
  Ok (py_stats st).

(** ** The XML, Markdown, YAML and generic classifiers *)

Record XmlLoop : Type := mkXmlLoop {
  xml_stats : FileStats;
  in_comment : bool
}.

(** The body of the loop of [classify_xml_lines]. *)
Definition xml_body (st : XmlLoop) (line : pystr) : XmlLoop :=
  let stripped := strip line in
  if is_empty stripped then mkXmlLoop (incr_blank (xml_stats st)) (in_comment st)
  else if in_comment st then
    let stats1 := incr_comment (xml_stats st) in
    if contains (str "-->") stripped then mkXmlLoop stats1 false
    else mkXmlLoop stats1 (in_comment st)
  else if startswith (str "<!--") stripped then
    let stats1 := incr_comment (xml_stats st) in
    if negb (contains (str "-->") (drop 4 stripped)) then mkXmlLoop stats1 true
    else mkXmlLoop stats1 (in_comment st)
  else mkXmlLoop (incr_code (xml_stats st)) (in_comment st).

Definition classify_xml_lines (lines : list pystr) : FileStats :=
  let stats0 := new_FileStats (str "") (str "XML") in
  let stats0 := set_total_lines (len lines) stats0 in
  xml_stats (fold_left xml_body lines (mkXmlLoop stats0 false)).

(** The body of the loop of [classify_markdown_lines]. *)
Definition markdown_body (stats : FileStats) (line : pystr) : FileStats :=
  if negb (is_empty (strip line)) then incr_docstring stats
  else incr_blank stats.

Definition classify_markdown_lines (lines : list pystr) : FileStats :=
  let stats0 := new_FileStats (str "") (str "Markdown") in
  let stats0 := set_total_lines (len lines) stats0 in
  fold_left markdown_body lines stats0.

(** The body of the loop of [classify_yaml_lines]. *)
Definition yaml_body (stats : FileStats) (line : pystr) : FileStats :=
  let stripped := strip line in
  if is_empty stripped then incr_blank stats
  else if startswith (str "#") stripped then incr_comment stats
  else incr_code stats.

Definition classify_yaml_lines (lines : list pystr) : FileStats :=
  let stats0 := new_FileStats (str "") (str "YAML") in
  let stats0 := set_total_lines (len lines) stats0 in
  fold_left yaml_body lines stats0.

(** The body of the loop of [classify_generic_lines]. *)
Definition generic_body (stats : FileStats) (line : pystr) : FileStats :=
  let stripped := strip line in
  if is_empty stripped then incr_blank stats
  else if startswith (str "//") stripped || startswith (str "#") stripped
  then incr_comment stats
  else incr_code stats.

Definition classify_generic_lines (lines : list pystr) (language : pystr)
  : FileStats :=
  let stats0 := new_FileStats (str "") language in
  let stats0 := set_total_lines (len lines) stats0 in
  fold_left generic_body lines stats0.

(** ** [PlatformStats] *)

Record PlatformStats : Type := mkPlatformStats {
  name : pystr;
  files : list FileStats
}.

(** [sum(xs)]: the elements are added to 0 from left to right. *)
Definition sum (xs : list Z) : Z := fold_left Z.add xs 0.

(** [sorted(xs)] on integers: the ascending arrangement of [xs]. *)
Definition sorted (xs : list Z) : list Z := merge_sort Z.le xs.

(** [not xs] for a list. *)
Definition is_nil {A} (xs : list A) : bool :=
  match xs with [] => true | _ => false end.

(** [xs[i]]: a negative index counts from the end, an index out of range
    raises [IndexError]. *)
Definition getitem (xs : list Z) (i : Z) : result Z :=
  let j := if i <? 0 then i + len xs else i in
  if (j <? 0) || (len xs <=? j) then Raise IndexError
  else match nth_error xs (Z.to_nat j) with
       | Some x => Ok x
       | None => Raise IndexError
       end.

(** *** Python numbers

    A [float] is a binary64 value, with the arithmetic of Rocq's
    specification of IEEE 754 ([SpecFloat] at [prec = 53], [emax = 1024]);
    the percentile argument is annotated [float] and every caller passes an
    [int], so both are modelled. *)
Inductive pynum : Type :=
| PyInt (z : Z)
| PyFloat (x : spec_float).

(** An integer as the floating-point number of the same value, before any
    rounding. *)
Definition exact_float (z : Z) : spec_float :=
  match z with
  | Z0 => S754_zero false
  | Zpos m => S754_finite false m 0
  | Zneg m => S754_finite true m 0
  end.

(** The conversion of an [int] operand to [float]: rounded to nearest even,
    [OverflowError] when the integer is too large. *)
Definition float_of_int (z : Z) : result spec_float :=
  match binary_normalize prec emax z 0 false with
  | S754_infinity _ => Raise OverflowError
  | x => Ok x
  end.

(** [n * p] for an [int] [n]. *)
Definition int_mul (n : Z) (p : pynum) : result pynum :=
  match p with
  | PyInt z => Ok (PyInt (n * z))
  | PyFloat x => let! fn := float_of_int n in Ok (PyFloat (SFmul prec emax fn x))
  end.

(** [a / 100]: true division by the [int] 100. Between two integers it is
    the correctly rounded quotient, [OverflowError] when that is too large
    for a [float]. *)
Definition div_100 (a : pynum) : result spec_float :=
  match a with
  | PyInt z =>
      match SFdiv prec emax (exact_float z) (exact_float 100) with
      | S754_infinity _ => Raise OverflowError
      | q => Ok q
      end
  | PyFloat x => let! h := float_of_int 100 in Ok (SFdiv prec emax x h)
  end.

(** [int(x)] for a [float]: truncation towards zero; infinities raise
    [OverflowError] and NaN raises [ValueError]. *)
Definition int_of_float (x : spec_float) : result Z :=
  match x with
  | S754_zero _ => Ok 0
  | S754_infinity _ => Raise OverflowError
  | S754_nan => Raise ValueError
  | S754_finite s m e =>
      let t := Z.shiftl (Zpos m) e in
      Ok (if s then - t else t)
  end.


(** [int(n * p / 100)], the index both percentile functions compute. *)
Definition raw_index (n : Z) (p : pynum) : result Z :=
  let! a := int_mul n p in
  let! q := div_100 a in
  int_of_float q.

Module PlatformStats.

(** Declared first: below, [total_lines] names the property of the
    platform and no longer the field of [FileStats]. *)
Definition file_lengths (self : PlatformStats) : list Z :=
  sorted (map total_lines (files self)).

Definition total_files (self : PlatformStats) : Z := len (files self).

Definition total_lines (self : PlatformStats) : Z :=
  sum (map total_lines (files self)).

Definition code_lines (self : PlatformStats) : Z :=
  sum (map code_lines (files self)).

Definition comment_lines (self : PlatformStats) : Z :=
  sum (map comment_lines (files self)).

Definition docstring_lines (self : PlatformStats) : Z :=
  sum (map docstring_lines (files self)).

Definition blank_lines (self : PlatformStats) : Z :=
  sum (map blank_lines (files self)).

Definition percentile (self : PlatformStats) (p : pynum) : result Z :=
  let lengths := file_lengths self in
  if is_nil lengths then Ok 0
  else
    let! idx := raw_index (len lengths) p in
    let idx := Z.min idx (len lengths - 1) in
    getitem lengths idx.


End PlatformStats.


(** The six aggregate properties of a platform, as [main] collects them for
    one entry of its JSON output ([files], [total_lines], [code_lines],
    [comment_lines], [docstring_lines], [blank_lines]); the rows of
    [_lang_stats] have the same six counters. *)
Record Totals : Type := mkTotals {
  t_files : Z;
  t_total : Z;
  t_code : Z;
  t_comments : Z;
  t_docs : Z;
  t_blank : Z
}.

Definition platform_totals (ps : PlatformStats) : Totals :=
  mkTotals (PlatformStats.total_files ps) (PlatformStats.total_lines ps)
    (PlatformStats.code_lines ps) (PlatformStats.comment_lines ps)
    (PlatformStats.docstring_lines ps) (PlatformStats.blank_lines ps).

(** The sum of two records of totals, counter by counter: how the totals of
    two separate scans are merged. *)
Definition totals_add (a b : Totals) : Totals :=
  mkTotals (t_files a + t_files b) (t_total a + t_total b)
    (t_code a + t_code b) (t_comments a + t_comments b)
    (t_docs a + t_docs b) (t_blank a + t_blank b).

Definition totals_zero : Totals := mkTotals 0 0 0 0 0 0.

Definition merge_totals (parts : list Totals) : Totals :=
  fold_left totals_add parts totals_zero.

(** ** [_lang_stats] *)

Definition SOURCE_EXTENSIONS : list pystr :=
  map str [".swift"; ".kt"; ".kts"; ".py"]%string.

(** [stats[lang][k] += v]: [stats] is a [defaultdict], a missing row is
    created with six zero counters. *)
Definition add_to (lang : pystr) (upd : Totals -> Totals)
    (stats : gmap pystr Totals) : gmap pystr Totals :=
  <[lang := upd (default totals_zero (stats !! lang))]> stats.

Section LangStats.

(** [Path(p).suffix.lower()], from [pathlib]. *)
Variable suffix_lower : pystr -> pystr.

(** The body of the inner loop of [_lang_stats]. *)
Definition lang_stats_body (stats : gmap pystr Totals) (f : FileStats)
  : gmap pystr Totals :=
  if negb (bool_decide (suffix_lower (path f) ∈ SOURCE_EXTENSIONS)) then stats
  else
    let lang := language f in
    let stats := add_to lang (fun r =>
      mkTotals (t_files r + 1) (t_total r) (t_code r) (t_comments r)
        (t_docs r) (t_blank r)) stats in
    let stats := add_to lang (fun r =>
      mkTotals (t_files r) (t_total r + total_lines f) (t_code r)
        (t_comments r) (t_docs r) (t_blank r)) stats in
    let stats := add_to lang (fun r =>
      mkTotals (t_files r) (t_total r) (t_code r + code_lines f)
        (t_comments r) (t_docs r) (t_blank r)) stats in
    let stats := add_to lang (fun r =>
      mkTotals (t_files r) (t_total r) (t_code r)
        (t_comments r + comment_lines f) (t_docs r) (t_blank r)) stats in
    let stats := add_to lang (fun r =>
      mkTotals (t_files r) (t_total r) (t_code r) (t_comments r)
        (t_docs r + docstring_lines f) (t_blank r)) stats in
    add_to lang (fun r =>
      mkTotals (t_files r) (t_total r) (t_code r) (t_comments r)
        (t_docs r) (t_blank r + blank_lines f)) stats.

(** [platforms] is the list of the values of the dictionary, in its
    order. *)
Definition _lang_stats (platforms : list PlatformStats)
  : gmap pystr Totals :=
  fold_left (fun stats ps => fold_left lang_stats_body (files ps) stats)
    platforms ∅.

End LangStats.

(** ** [main] *)

(** What a run does to the outside, in order. *)
Inductive event : Type :=
| Print (s : pystr)
| PrintErr (s : pystr)
| WalkProject (root : pystr)
| Report (what : pystr)
| WriteFile (file contents : pystr).

(** A computation with effects: it extends the trace of events and returns
    or raises. *)
Definition IO (A : Type) : Type := list event -> result A * list event.

Definition ret {A} (a : A) : IO A := fun tr => (Ok a, tr).

Definition emit (e : event) : IO unit := fun tr => (Ok tt, tr ++ [e]).

(** [sys.exit(code)] *)
Definition sys_exit {A} (code : Z) : IO A :=
  fun tr => (Raise (SystemExit code), tr).

Definition io_bind {A B} (m : IO A) (k : A -> IO B) : IO B :=
  fun tr =>
    match m tr with
    | (Ok a, tr') => k a tr'
    | (Raise e, tr') => (Raise e, tr')
    end.

Notation "'do' x '<-' m ';' k" := (io_bind m (fun x => k))
  (at level 10, x name, m at level 100, k at level 200).
Notation "m ';;' k" := (io_bind m (fun _ => k))
  (at level 100, k at level 200, right associativity).

(** The exit status of the process: 0 when [main] returns, the code of an
    uncaught [SystemExit], 1 for another uncaught exception. *)
Definition exit_status {A} (r : result A) : Z :=
  match r with
  | Ok _ => 0
  | Raise (SystemExit code) => code
  | Raise _ => 1
  end.

(** The parsed command line. *)
Record Args : Type := mkArgs {
  root : pystr;
  top : Z;
  json : bool;
  markdown : option pystr
}.

Section Main.

(** The file system of the run, as [os.path] sees it. *)
Variable abspath : pystr -> pystr.
Variable isdir : pystr -> bool.

(** The traversal: what [walk_project] returns on that file system. *)
Variable walk_result : pystr -> list (pystr * PlatformStats).

(** The renderers. *)
Variable generate_markdown : list (pystr * PlatformStats) -> Z -> pystr.
Variable json_dumps : list (pystr * PlatformStats) -> pystr.

Definition walk_project (root : pystr) : IO (list (pystr * PlatformStats)) :=
  emit (WalkProject root) ;; ret (walk_result root).

(** [main], after [parser.parse_args()]. *)
Definition main (args : Args) : IO unit :=
  let root := abspath (root args) in
  (if negb (isdir root) then
     emit (PrintErr (str "Error: " ++ root ++ str " is not a directory")) ;;
     sys_exit 1
   else ret tt) ;;
  do platforms <- walk_project root ;
  (if is_nil platforms then
     emit (Print (str "  No source files found.")) ;; sys_exit 0
   else ret tt) ;;
  (match markdown args with
   | Some target =>
       let md := generate_markdown platforms (top args) in
       if bool_decide (target = str "-") then emit (Print md)
       else
         let outpath := abspath target in
         emit (WriteFile outpath md) ;;
         emit (Print (str "Markdown report written to " ++ outpath))
   | None =>
       if json args then emit (Print (json_dumps platforms))
       else
         emit (Print (str "")) ;;
         emit (Print (str "  OpenHiker Code Statistics")) ;;
         emit (Print (str "  Root: " ++ root)) ;;
         emit (Report (str "print_divider")) ;;
         emit (Report (str "report_platform_summary")) ;;
         emit (Report (str "report_language_breakdown")) ;;
         emit (Report (str "report_doc_coverage")) ;;
         emit (Report (str "report_documentation")) ;;
         emit (Report (str "report_file_length_stats")) ;;
         emit (Report (str "report_file_size_distribution")) ;;
         emit (Report (str "report_longest_files"))
   end) ;;
  emit (Print (str "")).

End Main.

(** ** The vocabulary of the specification *)

(** The four line categories of the data model. *)
Inductive LineCategory : Type := Code | Comment | Documentation | Blank.

(** Counting one line in a category. *)
Definition count_as (c : LineCategory) : FileStats -> FileStats :=
  match c with
  | Code => incr_code
  | Comment => incr_comment
  | Documentation => incr_docstring
  | Blank => incr_blank
  end.

(** The number of lines a record has counted in its four categories. *)
Definition counted (s : FileStats) : Z :=
  code_lines s + comment_lines s + docstring_lines s + blank_lines s.

(** No counter is negative. *)
Definition counters_nonneg (s : FileStats) : Prop :=
  0 <= code_lines s /\ 0 <= comment_lines s
  /\ 0 <= docstring_lines s /\ 0 <= blank_lines s.

(** The partition invariant of a record produced from [lines]. *)
Definition partition_of (lines : list pystr) (s : FileStats) : Prop :=
  counted s = total_lines s /\ total_lines s = len lines /\ counters_nonneg s.

(** All five counters are zero. *)
Definition all_zero (s : FileStats) : Prop :=
  total_lines s = 0 /\ code_lines s = 0 /\ comment_lines s = 0
  /\ docstring_lines s = 0 /\ blank_lines s = 0.

(** What one turn of a classifier's loop does to the record: one more line
    is counted, no counter decreases, the total is untouched. *)
Definition counts_one_line (s s' : FileStats) : Prop :=
  counted s' = counted s + 1
  /\ total_lines s' = total_lines s
  /\ (counters_nonneg s -> counters_nonneg s').

(** In the Python loop the delimiter is a string whenever a docstring is
    open, so that [in] never meets [None]. *)
Definition delimiter_known (st : PythonLoop) : Prop :=
  in_docstring st = true -> exists d, docstring_delimiter st = Some d.

(** A line that consists of white space only (the empty line included). *)
Definition whitespace_only (line : pystr) : Prop :=
  forallb isspace line = true.

(** A record after one more line, counted blank. *)
Definition with_blank_line (s : FileStats) : FileStats :=
  set_total_lines (total_lines s + 1) (incr_blank s).

(** A change of the record that does not interfere with the counting of a
    line. *)
Definition commutes_with_counting (f : FileStats -> FileStats) : Prop :=
  forall c s, f (count_as c s) = count_as c (f s).

(** The same change applied to the record held in the local variables of the
    XML loop and of the Python loop. *)
Definition xml_on_stats (f : FileStats -> FileStats) (st : XmlLoop) : XmlLoop :=
  mkXmlLoop (f (xml_stats st)) (in_comment st).

Definition py_on_stats (f : FileStats -> FileStats) (st : PythonLoop)
  : PythonLoop :=
  mkPythonLoop (f (py_stats st)) (in_docstring st) (docstring_delimiter st).

(** The Normal state of a brace-comment classifier: no block is open. *)
Definition normal (st : BraceLoop) : Prop :=
  in_block_comment st = false /\ in_doc_block st = false.


(** [stats.language = l] *)
Definition set_language (l : pystr) (s : FileStats) : FileStats :=
  mkFileStats (path s) (total_lines s) (code_lines s) (comment_lines s)
    (docstring_lines s) (blank_lines s) l.

(** An event of the traversal or of the reporting of statistics: anything
    but a message on the error stream. *)
Definition is_traversal_or_output (e : event) : bool :=
  match e with
  | PrintErr _ => false
  | _ => true
  end.

(** What one source file adds to the row of its language. *)
Definition file_row (f : FileStats) : Totals :=
  mkTotals 1 (total_lines f) (code_lines f) (comment_lines f)
    (docstring_lines f) (blank_lines f).


(** * Further parts of the script *)

(** ** More vocabulary for the classifiers *)

(** The number of lines that consist of white space only. *)
Definition blank_count (lines : list pystr) : Z :=
  len (List.filter (fun line => forallb isspace line) lines).

(** The local variables of each stateful classifier when its loop ends;
    the classifier returns their record. *)
Definition swift_final (lines : list pystr) : BraceLoop :=
  fold_left swift_body lines
    (mkBraceLoop (set_total_lines (len lines)
                    (new_FileStats (str "") (str "Swift"))) false false).

Definition kotlin_final (lines : list pystr) : BraceLoop :=
  fold_left kotlin_body lines
    (mkBraceLoop (set_total_lines (len lines)
                    (new_FileStats (str "") (str "Kotlin"))) false false).

Definition xml_final (lines : list pystr) : XmlLoop :=
  fold_left xml_body lines
    (mkXmlLoop (set_total_lines (len lines)
                  (new_FileStats (str "") (str "XML"))) false).

Definition python_final (lines : list pystr) : result PythonLoop :=
  for_each python_body lines
    (mkPythonLoop (set_total_lines (len lines)
                     (new_FileStats (str "") (str "Python"))) false None).

(** The total and the four counters of [c] are the sums of those of [a] and
    [b]. *)
Definition sums_to (a b c : FileStats) : Prop :=
  total_lines c = total_lines a + total_lines b
  /\ code_lines c = code_lines a + code_lines b
  /\ comment_lines c = comment_lines a + comment_lines b
  /\ docstring_lines c = docstring_lines a + docstring_lines b
  /\ blank_lines c = blank_lines a + blank_lines b.

(** The record [a] with a new total and the counters of [s] added. *)
Definition carry_on (a : FileStats) (n : Z) (s : FileStats) : FileStats :=
  mkFileStats (path a) n (code_lines s + code_lines a)
    (comment_lines s + comment_lines a)
    (docstring_lines s + docstring_lines a)
    (blank_lines s + blank_lines a) (language a).

(** ** The other properties of [PlatformStats] *)

(** [min(xs, default=d)] and [max(xs, default=d)] *)
Definition min_default (xs : list Z) (d : Z) : Z :=
  match xs with
  | [] => d
  | x :: xs' => fold_left Z.min xs' x
  end.

Definition max_default (xs : list Z) (d : Z) : Z :=
  match xs with
  | [] => d
  | x :: xs' => fold_left Z.max xs' x
  end.

(** [PlatformStats.min_file_length] and [PlatformStats.max_file_length] *)
Definition min_file_length (self : PlatformStats) : Z :=
  min_default (map total_lines (files self)) 0.

Definition max_file_length (self : PlatformStats) : Z :=
  max_default (map total_lines (files self)) 0.

(** ** The size histogram *)

(** The upper end of a bucket: an integer or [float("inf")]. *)
Inductive bound : Type :=
| Finite (z : Z)
| Infinity.

(** [t <= high] *)
Definition le_bound (t : Z) (high : bound) : bool :=
  match high with
  | Finite z => t <=? z
  | Infinity => true
  end.

Definition SIZE_BUCKETS : list (Z * bound * pystr) :=
  [ (0, Finite 50, str "1-50 lines");
    (50, Finite 100, str "51-100 lines");
    (100, Finite 200, str "101-200 lines");
    (200, Finite 300, str "201-300 lines");
    (300, Finite 500, str "301-500 lines");
    (500, Finite 1000, str "501-1000 lines");
    (1000, Infinity, str "1000+ lines") ].

(** [sum(1 for f in files if cond(f))] *)
Definition count_if (cond : FileStats -> bool) (files : list FileStats) : Z :=
  sum (map (fun _ => 1) (List.filter cond files)).

(** [_bucket_count(files, low, high)] *)
Definition _bucket_count (files : list FileStats) (low : Z) (high : bound) : Z :=
  if low =? 0 then count_if (fun f => le_bound (total_lines f) high) files
  else count_if (fun f => (low <? total_lines f) && le_bound (total_lines f) high)
         files.

(** The counts the two size-distribution reports compute, one for each
    bucket of [SIZE_BUCKETS] in turn. *)
Definition bucket_counts (files : list FileStats) : list Z :=
  map (fun b => _bucket_count files (fst (fst b)) (snd (fst b))) SIZE_BUCKETS.

(** ** Collecting files *)

Definition DOC_EXTENSIONS : list pystr := [str ".md"].

Definition CONFIG_EXTENSIONS : list pystr :=
  map str [".xml"; ".yml"; ".yaml"; ".toml"; ".properties"; ".json"]%string.

(** [l.sort(key=key)] for integer keys: the sort is stable, an element goes
    behind the elements whose key is not above its own. *)
Fixpoint insert_by {A : Type} (key : A -> Z) (x : A) (l : list A) : list A :=
  match l with
  | [] => [x]
  | y :: l' => if key x <? key y then x :: l else y :: insert_by key x l'
  end.

Definition sort_by {A : Type} (key : A -> Z) (l : list A) : list A :=
  fold_left (fun acc x => insert_by key x acc) l [].

(** [l[:n]]: a negative [n] counts from the end. *)
Definition slice_to {A : Type} (l : list A) (n : Z) : list A :=
  if n <? 0 then take (Z.to_nat (len l + n)) l else take (Z.to_nat n) l.

Section Collect.

(** [Path(p).suffix.lower()], from [pathlib]. *)
Variable suffix_lower : pystr -> pystr.

(** The body of the inner loop of [_collect_src_files] and of
    [_collect_doc_files], for the extensions [exts]. *)
Definition collect_body (exts : list pystr) (result : list FileStats)
    (f : FileStats) : list FileStats :=
  if bool_decide (suffix_lower (path f) ∈ exts) then result ++ [f] else result.

Definition _collect_src_files (platforms : list PlatformStats)
  : list FileStats :=
  fold_left (fun result ps =>
               fold_left (collect_body SOURCE_EXTENSIONS) (files ps) result)
    platforms [].

Definition _collect_doc_files (platforms : list PlatformStats)
  : list FileStats :=
  let result :=
    fold_left (fun result ps =>
                 fold_left (collect_body DOC_EXTENSIONS) (files ps) result)
      platforms [] in
  sort_by (fun f => - total_lines f) result.

Definition _src_files_for_platform (ps : PlatformStats) : list FileStats :=
  List.filter (fun f => bool_decide (suffix_lower (path f) ∈ SOURCE_EXTENSIONS))
    (files ps).

(** The files [report_longest_files] prints and [generate_markdown] lists:
    the source files by falling length, cut at [top_n]. *)
Definition longest_files (platforms : list PlatformStats) (top_n : Z)
  : list FileStats :=
  slice_to (sort_by (fun f => - total_lines f) (_collect_src_files platforms))
    top_n.

End Collect.

(** The totals of a list of files, as a platform that holds exactly these
    files reports them. *)
Definition totals_of (fs : list FileStats) : Totals :=
  platform_totals (mkPlatformStats [] fs).

(** The four counters of a record of totals add up to its total. *)
Definition balanced (t : Totals) : Prop :=
  t_code t + t_comments t + t_docs t + t_blank t = t_total t.

(** ** Dictionaries with string keys, in insertion order *)

(** [k in d] *)
Definition dict_has {V : Type} (d : list (pystr * V)) (k : pystr) : bool :=
  existsb (fun kv => bool_decide (fst kv = k)) d.

(** [d.get(k)] *)
Fixpoint dict_get {V : Type} (d : list (pystr * V)) (k : pystr) : option V :=
  match d with
  | [] => None
  | (k', v) :: d' => if bool_decide (k' = k) then Some v else dict_get d' k
  end.

(** [d[k] = f(d[k])] for a key that is present. *)
Fixpoint dict_update {V : Type} (d : list (pystr * V)) (k : pystr)
    (f : V -> V) : list (pystr * V) :=
  match d with
  | [] => []
  | (k', v) :: d' =>
      if bool_decide (k' = k) then (k', f v) :: d'
      else (k', v) :: dict_update d' k f
  end.

(** ** The tables *)

(** [CLASSIFIERS]; the classifiers that cannot raise are wrapped in [Ok]. *)
Definition CLASSIFIERS : list (pystr * (list pystr -> result FileStats)) :=
  [ (str ".swift", fun lines => Ok (classify_swift_lines lines));
    (str ".kt", fun lines => Ok (classify_kotlin_lines lines));
    (str ".kts", fun lines => Ok (classify_kotlin_lines lines));
    (str ".py", classify_python_lines);
    (str ".xml", fun lines => Ok (classify_xml_lines lines));
    (str ".md", fun lines => Ok (classify_markdown_lines lines));
    (str ".yml", fun lines => Ok (classify_yaml_lines lines));
    (str ".yaml", fun lines => Ok (classify_yaml_lines lines)) ].

Definition LANGUAGE_NAMES : list (pystr * pystr) :=
  [ (str ".swift", str "Swift");
    (str ".kt", str "Kotlin");
    (str ".kts", str "Gradle KTS");
    (str ".py", str "Python");
    (str ".xml", str "XML");
    (str ".md", str "Markdown");
    (str ".yml", str "YAML");
    (str ".yaml", str "YAML");
    (str ".toml", str "TOML");
    (str ".properties", str "Properties");
    (str ".json", str "JSON");
    (str ".entitlements", str "Entitlements");
    (str ".plist", str "Plist") ].

Definition SKIP_DIRS : list pystr :=
  map str [ ".git"; ".gradle"; ".idea"; "build"; "DerivedData"; "Pods";
            ".build"; "__pycache__"; "node_modules"; ".claude"; "xcuserdata";
            "xcshareddata"; "Assets.xcassets"; "WatchAssets.xcassets";
            "MacAssets.xcassets"; "Preview Content"; "Screenshots" ]%string.

(** ** [detect_platform] *)

(** [detect_platform] on [parts], the components of the path of the file
    relative to the root ([Path(os.path.relpath(filepath, root)).parts]). *)
Definition detect_platform_of (parts : list pystr) : pystr :=
  match parts with
  | [] => str "Root"
  | first :: _ =>
      if bool_decide (first = str "OpenHiker iOS") then str "iOS"
      else if bool_decide (first = str "OpenHiker watchOS") then str "watchOS"
      else if bool_decide (first = str "OpenHiker macOS") then str "macOS"
      else if bool_decide (first = str "OpenHikerAndroid") then
        if (1 <? len parts) && bool_decide (nth_error parts 1 = Some (str "core"))
        then str "Android Core"
        else if (1 <? len parts)
                && bool_decide (nth_error parts 1 = Some (str "app"))
        then str "Android App"
        else str "Android (config)"
      else if bool_decide (first = str "Shared") then str "Shared (Apple)"
      else if bool_decide (first = str "OpenHikerTests") then str "Tests"
      else if bool_decide (first = str "docs") then str "Documentation"
      else if bool_decide (first = str ".github") then str "CI/CD"
      else if bool_decide (first = str "route-repo-template")
      then str "Route Template"
      else if bool_decide (first = str "scripts") then str "Scripts"
      else str "Root"
  end.

(** The names [detect_platform] can return. *)
Definition PLATFORM_NAMES : list pystr :=
  map str [ "iOS"; "watchOS"; "macOS"; "Android Core"; "Android App";
            "Android (config)"; "Shared (Apple)"; "Tests"; "Documentation";
            "CI/CD"; "Route Template"; "Scripts"; "Root" ]%string.

(** ** [analyze_file] and [walk_project] *)

(** The test of the list comprehension that prunes [dirnames]:
    [d not in SKIP_DIRS and not d.startswith(".") or d == ".github"]. *)
Definition keep_dir (d : pystr) : bool :=
  (negb (bool_decide (d ∈ SKIP_DIRS)) && negb (startswith (str ".") d))
  || bool_decide (d = str ".github").

Definition prune (dirnames : list pystr) : list pystr :=
  List.filter keep_dir dirnames.

(** [SOURCE_EXTENSIONS | DOC_EXTENSIONS | CONFIG_EXTENSIONS] *)
Definition all_exts : list pystr :=
  SOURCE_EXTENSIONS ++ DOC_EXTENSIONS ++ CONFIG_EXTENSIONS.

Module Walk.
Section Walk.

(** [Path(p).suffix.lower()], from [pathlib]. *)
Variable suffix_lower : pystr -> pystr.

(** The lines [readlines] returns for a file, [None] when opening or
    reading it raises [OSError]. *)
Variable read_lines : pystr -> option (list pystr).

(** [ext.lstrip(".").upper()] *)
Variable upper_name : pystr -> pystr.

(** [os.path.join] and [os.path.relpath]. *)
Variable join : pystr -> pystr -> pystr.
Variable relpath : pystr -> pystr -> pystr.

(** [Path(rel).parts] *)
Variable parts : pystr -> list pystr.

(** The triples [(dirpath, dirnames, filenames)] that [os.walk(root)] yields
    when after each of them the caller replaces [dirnames] by its pruned
    list. *)
Variable os_walk :
  (list pystr -> list pystr) -> pystr -> list (pystr * list pystr * list pystr).

Definition detect_platform (filepath root : pystr) : pystr :=
  detect_platform_of (parts (relpath filepath root)).

(** [analyze_file]: [Ok None] is the return value [None]. *)
Definition analyze_file (filepath : pystr) : result (option FileStats) :=
  let ext := suffix_lower filepath in
  if negb (dict_has CLASSIFIERS ext) && negb (bool_decide (ext ∈ CONFIG_EXTENSIONS))
  then Ok None
  else
    match read_lines filepath with
    | None => Ok None
    | Some lines =>
        let! stats :=
          match dict_get CLASSIFIERS ext with
          | Some classify => classify lines
          | None =>
              let lang :=
                default (upper_name ext) (dict_get LANGUAGE_NAMES ext) in
              Ok (classify_generic_lines lines lang)
          end in
        Ok (Some (set_path filepath stats))
    end.

(** The body of the inner loop of [walk_project], for one file name of the
    directory [dirpath]. *)
Definition walk_file (root dirpath : pystr)
    (platforms : list (pystr * PlatformStats)) (fname : pystr)
  : result (list (pystr * PlatformStats)) :=
  let filepath := join dirpath fname in
  let ext := suffix_lower fname in
  if negb (bool_decide (ext ∈ all_exts)) then Ok platforms
  else
    let! stats := analyze_file filepath in
    match stats with
    | None => Ok platforms
    | Some stats =>
        let platform := detect_platform filepath root in
        let platforms :=
          if negb (dict_has platforms platform)
          then platforms ++ [(platform, mkPlatformStats platform [])]
          else platforms in
        let stats := set_path (relpath filepath root) stats in
        Ok (dict_update platforms platform
              (fun ps => mkPlatformStats (name ps) (files ps ++ [stats])))
    end.

Definition walk_project (root : pystr)
  : result (list (pystr * PlatformStats)) :=
  for_each
    (fun platforms triple =>
       for_each (walk_file root (fst (fst triple))) (snd triple) platforms)
    (os_walk prune root) [].

End Walk.
End Walk.



Section WalkRecords.

Variable suffix_lower : pystr -> pystr.
Variable read_lines : pystr -> option (list pystr).
Variable upper_name : pystr -> pystr.
Variable join : pystr -> pystr -> pystr.
Variable relpath : pystr -> pystr -> pystr.
Variable parts : pystr -> list pystr.
Variable os_walk :
  (list pystr -> list pystr) -> pystr -> list (pystr * list pystr * list pystr).




End WalkRecords.





(** ** The platform summary *)

(** [a < b] on strings: by code points, the shorter of two strings first
    when one starts the other. *)
Fixpoint str_ltb (a b : pystr) : bool :=
  match a, b with
  | _, [] => false
  | [], _ :: _ => true
  | x :: a', y :: b' => (x <? y)%N || ((x =? y)%N && str_ltb a' b')
  end.

(** [sorted(d.items())] for a dictionary: by key, the keys being distinct. *)
Fixpoint insert_item {V : Type} (kv : pystr * V) (l : list (pystr * V))
  : list (pystr * V) :=
  match l with
  | [] => [kv]
  | kv' :: l' =>
      if str_ltb (fst kv) (fst kv') then kv :: l else kv' :: insert_item kv l'
  end.

Definition sorted_items {V : Type} (d : list (pystr * V)) : list (pystr * V) :=
  fold_left (fun acc kv => insert_item kv acc) d [].

(** The test of both platform summaries:
    [ps.code_lines > 0 or ps.comment_lines > 0 or ps.docstring_lines > 0]. *)
Definition has_content (ps : PlatformStats) : bool :=
  (0 <? PlatformStats.code_lines ps) || (0 <? PlatformStats.comment_lines ps)
  || (0 <? PlatformStats.docstring_lines ps).

Section Summary.

Variable suffix_lower : pystr -> pystr.

(** One turn of the loop of the platform summary, as far as the grand
    totals go: [grand_files += len(src_files)] and the five sums. *)
Definition summary_body (grand : Totals) (item : pystr * PlatformStats)
  : Totals :=
  let ps := snd item in
  if negb (has_content ps) then grand
  else
    let src_files := _src_files_for_platform suffix_lower ps in
    if is_nil src_files then grand
    else
      let total := sum (map total_lines src_files) in
      let code := sum (map code_lines src_files) in
      let comments := sum (map comment_lines src_files) in
      let docs := sum (map docstring_lines src_files) in
      let blanks := sum (map blank_lines src_files) in
      mkTotals (t_files grand + len src_files) (t_total grand + total)
        (t_code grand + code) (t_comments grand + comments)
        (t_docs grand + docs) (t_blank grand + blanks).

(** The numbers of the [TOTAL] row of the platform summary. *)
Definition summary_grand_totals (platforms : list (pystr * PlatformStats))
  : Totals :=
  fold_left summary_body (sorted_items platforms) totals_zero.

End Summary.

(** * Properties *)

(** ** Strings *)

Lemma lstrip_nil_iff (s : pystr) : lstrip s = [] <-> forallb isspace s = true.
Proof.
  induction s as [|c s IH]; simpl; [tauto|].
  destruct (isspace c); simpl; [exact IH|].
  split; discriminate.
Qed.

Lemma forallb_isspace_rev (s : pystr) :
  forallb isspace (rev s) = forallb isspace s.
Proof.
  induction s as [|c s IH]; simpl; [reflexivity|].
  rewrite forallb_app, IH. simpl. rewrite andb_true_r. apply andb_comm.
Qed.

Lemma lstrip_suffix (s : pystr) : exists ws, s = ws ++ lstrip s /\ forallb isspace ws = true.
Proof.
  induction s as [|c s [ws [E W]]]; simpl.
  - exists []. split; reflexivity.
  - destruct (isspace c) eqn:Hc.
    + exists (c :: ws). simpl. rewrite Hc, W. split; [f_equal; exact E | reflexivity].
    + exists []. split; reflexivity.
Qed.

(** A line is stripped to the empty string exactly when all its characters
    are white space. *)
Lemma strip_nil_iff (s : pystr) : strip s = [] <-> forallb isspace s = true.
Proof.
  unfold strip, rstrip. split.
  - intros H.
    assert (H1 : lstrip (rev (lstrip s)) = []).
    { apply (f_equal (@rev N)) in H. rewrite rev_involutive in H. exact H. }
    apply lstrip_nil_iff in H1. rewrite forallb_isspace_rev in H1.
    destruct (lstrip_suffix s) as [ws [E W]].
    rewrite E, forallb_app, W, H1. reflexivity.
  - intros H. apply lstrip_nil_iff in H. rewrite H. reflexivity.
Qed.

Lemma is_empty_strip (s : pystr) :
  is_empty (strip s) = forallb isspace s.
Proof.
  destruct (forallb isspace s) eqn:H.
  - apply strip_nil_iff in H. rewrite H. reflexivity.
  - destruct (strip s) eqn:E; [|reflexivity].
    apply strip_nil_iff in E. congruence.
Qed.

(** ** The partition invariant *)

Lemma counts_one_line_count_as (c : LineCategory) (s : FileStats) :
  counts_one_line s (count_as c s).
Proof.
  unfold counts_one_line, counted, counters_nonneg.
  destruct c; cbn;
    (split; [lia|]; split; [reflexivity|];
     intros (? & ? & ? & ?); repeat split; lia).
Qed.

Ltac split_ifs :=
  repeat match goal with
    | |- context [if ?c then _ else _] => destruct c eqn:?
    end.

Ltac one_line :=
  first [ apply (counts_one_line_count_as Code)
        | apply (counts_one_line_count_as Comment)
        | apply (counts_one_line_count_as Documentation)
        | apply (counts_one_line_count_as Blank) ].

Lemma swift_body_counts (st : BraceLoop) (line : pystr) :
  counts_one_line (stats st) (stats (swift_body st line)).
Proof.
  destruct st as [s bc db]. unfold swift_body. cbn [in_block_comment in_doc_block].
  split_ifs; cbn; one_line.
Qed.

Lemma kotlin_body_counts (st : BraceLoop) (line : pystr) :
  counts_one_line (stats st) (stats (kotlin_body st line)).
Proof.
  destruct st as [s bc db]. unfold kotlin_body. cbn [in_block_comment in_doc_block].
  split_ifs; cbn; one_line.
Qed.

Lemma xml_body_counts (st : XmlLoop) (line : pystr) :
  counts_one_line (xml_stats st) (xml_stats (xml_body st line)).
Proof.
  destruct st as [s c]. unfold xml_body. cbn [in_comment xml_stats].
  split_ifs; cbn; one_line.
Qed.

Lemma markdown_body_counts (s : FileStats) (line : pystr) :
  counts_one_line s (markdown_body s line).
Proof. unfold markdown_body. split_ifs; one_line. Qed.

Lemma yaml_body_counts (s : FileStats) (line : pystr) :
  counts_one_line s (yaml_body s line).
Proof. unfold yaml_body. split_ifs; one_line. Qed.

Lemma generic_body_counts (s : FileStats) (line : pystr) :
  counts_one_line s (generic_body s line).
Proof. unfold generic_body. split_ifs; one_line. Qed.

(** The loop invariant, for a loop whose local variables [S] hold the record
    under [proj]. *)
Lemma loop_counts {S : Type} (proj : S -> FileStats) (body : S -> pystr -> S) :
  (forall st line, counts_one_line (proj st) (proj (body st line))) ->
  forall lines st,
    counted (proj (fold_left body lines st)) = counted (proj st) + len lines
    /\ total_lines (proj (fold_left body lines st)) = total_lines (proj st)
    /\ (counters_nonneg (proj st) ->
        counters_nonneg (proj (fold_left body lines st))).
Proof.
  intros Hbody lines. unfold len.
  induction lines as [|l lines IH]; intros st; simpl fold_left.
  - simpl. split; [lia|]. split; [reflexivity | exact (fun H => H)].
  - destruct (Hbody st l) as (Hc & Ht & Hn).
    destruct (IH (body st l)) as (Hc' & Ht' & Hn').
    rewrite Hc', Ht', Hc, Ht.
    split; [simpl length; lia|]. split; [reflexivity | auto].
Qed.

Lemma loop_partition {S : Type} (proj : S -> FileStats)
    (body : S -> pystr -> S) (lines : list pystr) (st : S) :
  (forall st line, counts_one_line (proj st) (proj (body st line))) ->
  counted (proj st) = 0 -> counters_nonneg (proj st) ->
  total_lines (proj st) = len lines ->
  partition_of lines (proj (fold_left body lines st)).
Proof.
  intros Hbody H0 Hn Ht.
  destruct (loop_counts proj body Hbody lines st) as (Hc & Ht' & Hn').
  unfold partition_of. rewrite Hc, Ht', H0, Ht.
  split; [lia|]. split; [reflexivity | auto].
Qed.

Lemma python_body_counts (st : PythonLoop) (line : pystr) :
  delimiter_known st ->
  exists st', python_body st line = Ok st'
    /\ delimiter_known st'
    /\ counts_one_line (py_stats st) (py_stats st').
Proof.
  destruct st as [s ind dd]. unfold delimiter_known, python_body.
  cbn [in_docstring docstring_delimiter py_stats]. intros Hk.
  destruct (is_empty (strip line)).
  { eexists; split; [reflexivity|]. split; [exact Hk | one_line]. }
  destruct ind.
  { destruct (Hk eq_refl) as [d ->]. cbn.
    destruct (contains d (strip line));
      (eexists; split; [reflexivity|]; cbn; split; [|one_line]);
      [discriminate | eauto]. }
  split_ifs; (eexists; split; [reflexivity|]; cbn; split; [|one_line]);
    first [discriminate | eauto].
Qed.

Lemma python_loop_counts (lines : list pystr) (st : PythonLoop) :
  delimiter_known st ->
  exists st', for_each python_body lines st = Ok st'
    /\ delimiter_known st'
    /\ counted (py_stats st') = counted (py_stats st) + len lines
    /\ total_lines (py_stats st') = total_lines (py_stats st)
    /\ (counters_nonneg (py_stats st) -> counters_nonneg (py_stats st')).
Proof.
  unfold len. revert st.
  induction lines as [|l lines IH]; intros st Hk; simpl for_each.
  - exists st. simpl. split; [reflexivity|]. split; [exact Hk|].
    split; [lia|]. split; [reflexivity | exact (fun H => H)].
  - destruct (python_body_counts st l Hk) as (st1 & E1 & Hk1 & Hc & Ht & Hn).
    rewrite E1. cbn [bind].
    destruct (IH st1 Hk1) as (st' & E' & Hk' & Hc' & Ht' & Hn').
    exists st'. rewrite E', Hc', Ht', Hc, Ht.
    split; [reflexivity|]. split; [exact Hk'|].
    split; [simpl length; lia|]. split; [reflexivity | auto].
Qed.

Lemma new_FileStats_fresh (p l : pystr) (n : Z) :
  counted (set_total_lines n (new_FileStats p l)) = 0
  /\ counters_nonneg (set_total_lines n (new_FileStats p l))
  /\ total_lines (set_total_lines n (new_FileStats p l)) = n.
Proof. unfold counted, counters_nonneg. cbn. repeat split; lia. Qed.

(** C1. Every classifier (Swift, Kotlin, Python, XML, Markdown, YAML,
    generic) returns, on every sequence of lines, a record whose code,
    comment, documentation and blank counters add up to its total, which is
    the number of lines; no counter is negative; the Python classifier never
    raises; and on the empty sequence every counter is zero. *)
Theorem classifiers_partition_lines (lines : list pystr) (language : pystr) :
  (partition_of lines (classify_swift_lines lines)
   /\ partition_of lines (classify_kotlin_lines lines)
   /\ (exists s, classify_python_lines lines = Ok s /\ partition_of lines s)
   /\ partition_of lines (classify_xml_lines lines)
   /\ partition_of lines (classify_markdown_lines lines)
   /\ partition_of lines (classify_yaml_lines lines)
   /\ partition_of lines (classify_generic_lines lines language))
  /\ (all_zero (classify_swift_lines [])
      /\ all_zero (classify_kotlin_lines [])
      /\ classify_python_lines []
         = Ok (new_FileStats (str "") (str "Python"))
      /\ all_zero (classify_xml_lines [])
      /\ all_zero (classify_markdown_lines [])
      /\ all_zero (classify_yaml_lines [])
      /\ all_zero (classify_generic_lines [] language)).
Proof.
  split; [|unfold all_zero; cbn; tauto].
  refine (conj _ (conj _ (conj _ (conj _ (conj _ (conj _ _)))))).
  - unfold classify_swift_lines.
    apply (loop_partition stats swift_body); [apply swift_body_counts |..];
      apply new_FileStats_fresh.
  - unfold classify_kotlin_lines.
    apply (loop_partition stats kotlin_body); [apply kotlin_body_counts |..];
      apply new_FileStats_fresh.
  - unfold classify_python_lines. cbv zeta.
    set (s0 := set_total_lines (len lines) (new_FileStats (str "") (str "Python"))).
    destruct (python_loop_counts lines (mkPythonLoop s0 false None))
      as (st' & E & _ & Hc & Ht & Hn); [intros H; discriminate H|].
    rewrite E. cbn [bind]. exists (py_stats st'). split; [reflexivity|].
    cbn [py_stats] in Hc, Ht, Hn.
    destruct (new_FileStats_fresh (str "") (str "Python") (len lines))
      as (H0 & Hn0 & Ht0). fold s0 in H0, Hn0, Ht0.
    unfold partition_of. rewrite Hc, Ht, H0, Ht0.
    split; [lia|]. split; [reflexivity | auto].
  - unfold classify_xml_lines.
    apply (loop_partition xml_stats xml_body); [apply xml_body_counts |..];
      apply new_FileStats_fresh.
  - unfold classify_markdown_lines.
    apply (loop_partition (fun s => s) markdown_body);
      [apply markdown_body_counts |..]; apply new_FileStats_fresh.
  - unfold classify_yaml_lines.
    apply (loop_partition (fun s => s) yaml_body);
      [apply yaml_body_counts |..]; apply new_FileStats_fresh.
  - unfold classify_generic_lines.
    apply (loop_partition (fun s => s) generic_body);
      [apply generic_body_counts |..]; apply new_FileStats_fresh.
Qed.

(** ** Blank lines *)

Lemma incr_blank_commutes : commutes_with_counting incr_blank.
Proof. intros [] s; reflexivity. Qed.

Lemma set_total_lines_commutes (n : Z) :
  commutes_with_counting (set_total_lines n).
Proof. intros [] s; reflexivity. Qed.

Lemma compose_commutes (f g : FileStats -> FileStats) :
  commutes_with_counting f -> commutes_with_counting g ->
  commutes_with_counting (fun s => f (g s)).
Proof. intros Hf Hg c s. rewrite Hg, Hf. reflexivity. Qed.

Ltac commute_counts Hf :=
  cbn;
  rewrite ?(Hf Code : forall s, _ (incr_code s) = _),
          ?(Hf Comment : forall s, _ (incr_comment s) = _),
          ?(Hf Documentation : forall s, _ (incr_docstring s) = _),
          ?(Hf Blank : forall s, _ (incr_blank s) = _);
  reflexivity.

(** The control flow of a loop body never reads the counters. *)
Lemma swift_body_on_stats (f : FileStats -> FileStats) (st : BraceLoop)
    (line : pystr) :
  commutes_with_counting f ->
  swift_body (on_stats f st) line = on_stats f (swift_body st line).
Proof.
  intros Hf. destruct st as [s bc db]. unfold swift_body, on_stats.
  cbn [in_block_comment in_doc_block stats].
  split_ifs; commute_counts Hf.
Qed.

Lemma kotlin_body_on_stats (f : FileStats -> FileStats) (st : BraceLoop)
    (line : pystr) :
  commutes_with_counting f ->
  kotlin_body (on_stats f st) line = on_stats f (kotlin_body st line).
Proof.
  intros Hf. destruct st as [s bc db]. unfold kotlin_body, on_stats.
  cbn [in_block_comment in_doc_block stats].
  split_ifs; commute_counts Hf.
Qed.

Lemma xml_body_on_stats (f : FileStats -> FileStats) (st : XmlLoop)
    (line : pystr) :
  commutes_with_counting f ->
  xml_body (xml_on_stats f st) line = xml_on_stats f (xml_body st line).
Proof.
  intros Hf. destruct st as [s c]. unfold xml_body, xml_on_stats.
  cbn [in_comment xml_stats].
  split_ifs; commute_counts Hf.
Qed.

Lemma markdown_body_on_stats (f : FileStats -> FileStats) (s : FileStats)
    (line : pystr) :
  commutes_with_counting f ->
  markdown_body (f s) line = f (markdown_body s line).
Proof. intros Hf. unfold markdown_body. split_ifs; commute_counts Hf. Qed.

Lemma yaml_body_on_stats (f : FileStats -> FileStats) (s : FileStats)
    (line : pystr) :
  commutes_with_counting f ->
  yaml_body (f s) line = f (yaml_body s line).
Proof. intros Hf. unfold yaml_body. split_ifs; commute_counts Hf. Qed.

Lemma generic_body_on_stats (f : FileStats -> FileStats) (s : FileStats)
    (line : pystr) :
  commutes_with_counting f ->
  generic_body (f s) line = f (generic_body s line).
Proof. intros Hf. unfold generic_body. split_ifs; commute_counts Hf. Qed.

Lemma python_body_on_stats (f : FileStats -> FileStats) (st : PythonLoop)
    (line : pystr) :
  commutes_with_counting f ->
  python_body (py_on_stats f st) line
  = let! st' := python_body st line in Ok (py_on_stats f st').
Proof.
  intros Hf. destruct st as [s ind dd]. unfold python_body, py_on_stats.
  cbn [in_docstring docstring_delimiter py_stats].
  destruct (is_empty (strip line)); [commute_counts Hf|].
  destruct ind.
  { destruct dd as [d|]; [|reflexivity]. cbn [in_str bind].
    destruct (contains d (strip line)); commute_counts Hf. }
  split_ifs; commute_counts Hf.
Qed.

Section BlankInsertion.

Context {S : Type}.
Variable proj : S -> FileStats.
Variable lift : (FileStats -> FileStats) -> S -> S.
Variable body : S -> pystr -> S.
Variable ws : pystr.

Hypothesis proj_lift : forall f st, proj (lift f st) = f (proj st).
Hypothesis lift_lift :
  forall f g st, lift f (lift g st) = lift (fun s => f (g s)) st.
Hypothesis body_lift :
  forall f st line,
    commutes_with_counting f -> body (lift f st) line = lift f (body st line).
Hypothesis body_ws : forall st, body st ws = lift incr_blank st.

Lemma fold_lift (f : FileStats -> FileStats) (lines : list pystr) (st : S) :
  commutes_with_counting f ->
  fold_left body lines (lift f st) = lift f (fold_left body lines st).
Proof.
  intros Hf. revert st.
  induction lines as [|l lines IH]; intros st; simpl; [reflexivity|].
  rewrite body_lift by exact Hf. apply IH.
Qed.

(** A white-space line put anywhere in the input changes the outcome of the
    loop by one blank line, and nothing else. *)
Lemma fold_insert_blank (pre post : list pystr) (st : S) (n : Z) :
  proj (fold_left body (pre ++ ws :: post) (lift (set_total_lines n) st))
  = incr_blank (set_total_lines n (proj (fold_left body (pre ++ post) st))).
Proof.
  rewrite !fold_left_app. simpl fold_left.
  rewrite (fold_lift (set_total_lines n)) by apply set_total_lines_commutes.
  rewrite body_ws, lift_lift.
  rewrite fold_lift, proj_lift; [reflexivity|].
  apply compose_commutes;
    [apply incr_blank_commutes | apply set_total_lines_commutes].
Qed.

End BlankInsertion.

Lemma len_insert (pre post : list pystr) (ws : pystr) :
  len (pre ++ ws :: post) = len (pre ++ post) + 1.
Proof. unfold len. rewrite !length_app. simpl length. lia. Qed.

Lemma incr_blank_set_total (n : Z) (s : FileStats) :
  total_lines s + 1 = n ->
  incr_blank (set_total_lines n s) = with_blank_line s.
Proof. intros <-. reflexivity. Qed.

(** In every classifier a white-space line is counted blank and leaves the
    other local variables of the loop as they are. *)
Lemma blank_step (ws : pystr) :
  whitespace_only ws ->
  (forall st, swift_body st ws = on_stats incr_blank st)
  /\ (forall st, kotlin_body st ws = on_stats incr_blank st)
  /\ (forall st, python_body st ws = Ok (py_on_stats incr_blank st))
  /\ (forall st, xml_body st ws = xml_on_stats incr_blank st)
  /\ (forall s, markdown_body s ws = incr_blank s)
  /\ (forall s, yaml_body s ws = incr_blank s)
  /\ (forall s, generic_body s ws = incr_blank s).
Proof.
  unfold whitespace_only. intros H.
  assert (E : is_empty (strip ws) = true) by (rewrite is_empty_strip; exact H).
  unfold swift_body, kotlin_body, python_body, xml_body, markdown_body,
    yaml_body, generic_body.
  rewrite E. cbn [negb]. repeat split.
Qed.

Lemma swift_insert_blank (ws : pystr) (pre post : list pystr) :
  whitespace_only ws ->
  classify_swift_lines (pre ++ ws :: post)
  = with_blank_line (classify_swift_lines (pre ++ post)).
Proof.
  intros H. destruct (blank_step ws H) as (Hb & _).
  unfold classify_swift_lines. cbv zeta.
  set (s0 := set_total_lines (len (pre ++ post))
               (new_FileStats (str "") (str "Swift"))).
  change (mkBraceLoop (set_total_lines (len (pre ++ ws :: post))
            (new_FileStats (str "") (str "Swift"))) false false)
    with (on_stats (set_total_lines (len (pre ++ ws :: post)))
            (mkBraceLoop s0 false false)).
  rewrite (fold_insert_blank stats on_stats swift_body ws);
    [| reflexivity | reflexivity | apply swift_body_on_stats | exact Hb].
  apply incr_blank_set_total. rewrite len_insert. f_equal.
  apply (loop_counts stats swift_body swift_body_counts).
Qed.

Lemma kotlin_insert_blank (ws : pystr) (pre post : list pystr) :
  whitespace_only ws ->
  classify_kotlin_lines (pre ++ ws :: post)
  = with_blank_line (classify_kotlin_lines (pre ++ post)).
Proof.
  intros H. destruct (blank_step ws H) as (_ & Hb & _).
  unfold classify_kotlin_lines. cbv zeta.
  set (s0 := set_total_lines (len (pre ++ post))
               (new_FileStats (str "") (str "Kotlin"))).
  change (mkBraceLoop (set_total_lines (len (pre ++ ws :: post))
            (new_FileStats (str "") (str "Kotlin"))) false false)
    with (on_stats (set_total_lines (len (pre ++ ws :: post)))
            (mkBraceLoop s0 false false)).
  rewrite (fold_insert_blank stats on_stats kotlin_body ws);
    [| reflexivity | reflexivity | apply kotlin_body_on_stats | exact Hb].
  apply incr_blank_set_total. rewrite len_insert. f_equal.
  apply (loop_counts stats kotlin_body kotlin_body_counts).
Qed.

Lemma xml_insert_blank (ws : pystr) (pre post : list pystr) :
  whitespace_only ws ->
  classify_xml_lines (pre ++ ws :: post)
  = with_blank_line (classify_xml_lines (pre ++ post)).
Proof.
  intros H. destruct (blank_step ws H) as (_ & _ & _ & Hb & _).
  unfold classify_xml_lines. cbv zeta.
  set (s0 := set_total_lines (len (pre ++ post))
               (new_FileStats (str "") (str "XML"))).
  change (mkXmlLoop (set_total_lines (len (pre ++ ws :: post))
            (new_FileStats (str "") (str "XML"))) false)
    with (xml_on_stats (set_total_lines (len (pre ++ ws :: post)))
            (mkXmlLoop s0 false)).
  rewrite (fold_insert_blank xml_stats xml_on_stats xml_body ws);
    [| reflexivity | reflexivity | apply xml_body_on_stats | exact Hb].
  apply incr_blank_set_total. rewrite len_insert. f_equal.
  apply (loop_counts xml_stats xml_body xml_body_counts).
Qed.

Lemma stateless_insert_blank (body : FileStats -> pystr -> FileStats)
    (language : pystr) (ws : pystr) (pre post : list pystr) :
  (forall s line, counts_one_line s (body s line)) ->
  (forall f s line, commutes_with_counting f -> body (f s) line = f (body s line)) ->
  (forall s, body s ws = incr_blank s) ->
  fold_left body (pre ++ ws :: post)
    (set_total_lines (len (pre ++ ws :: post)) (new_FileStats (str "") language))
  = with_blank_line
      (fold_left body (pre ++ post)
         (set_total_lines (len (pre ++ post)) (new_FileStats (str "") language))).
Proof.
  intros Hc Hl Hb.
  set (s0 := set_total_lines (len (pre ++ post)) (new_FileStats (str "") language)).
  pose proof (fold_insert_blank (fun s => s) (fun f s => f s) body ws
                (fun _ _ => eq_refl) (fun _ _ _ => eq_refl) Hl Hb
                pre post s0 (len (pre ++ ws :: post))) as E.
  cbv beta in E.
  change (set_total_lines (len (pre ++ ws :: post)) (new_FileStats (str "") language))
    with (set_total_lines (len (pre ++ ws :: post)) s0).
  rewrite E.
  apply incr_blank_set_total. rewrite len_insert. f_equal.
  apply (loop_counts (fun s => s) body Hc).
Qed.

Lemma for_each_app {S A : Type} (body : S -> A -> result S) (l1 l2 : list A)
    (s : S) :
  for_each body (l1 ++ l2) s
  = let! s' := for_each body l1 s in for_each body l2 s'.
Proof.
  revert s. induction l1 as [|a l1 IH]; intros s; simpl; [reflexivity|].
  destruct (body s a); simpl; [apply IH | reflexivity].
Qed.

Lemma python_loop_on_stats (f : FileStats -> FileStats) (lines : list pystr)
    (st : PythonLoop) :
  commutes_with_counting f ->
  for_each python_body lines (py_on_stats f st)
  = let! st' := for_each python_body lines st in Ok (py_on_stats f st').
Proof.
  intros Hf. revert st.
  induction lines as [|l lines IH]; intros st; simpl; [reflexivity|].
  rewrite python_body_on_stats by exact Hf.
  destruct (python_body st l); simpl; [apply IH | reflexivity].
Qed.

Lemma python_insert_blank (ws : pystr) (pre post : list pystr) :
  whitespace_only ws ->
  exists s, classify_python_lines (pre ++ post) = Ok s
    /\ classify_python_lines (pre ++ ws :: post) = Ok (with_blank_line s).
Proof.
  intros H. destruct (blank_step ws H) as (_ & _ & Hb & _).
  unfold classify_python_lines. cbv zeta.
  set (s0 := set_total_lines (len (pre ++ post))
               (new_FileStats (str "") (str "Python"))).
  change (mkPythonLoop (set_total_lines (len (pre ++ ws :: post))
            (new_FileStats (str "") (str "Python"))) false None)
    with (py_on_stats (set_total_lines (len (pre ++ ws :: post)))
            (mkPythonLoop s0 false None)).
  set (st0 := mkPythonLoop s0 false None).
  assert (K0 : delimiter_known st0) by (intros K; discriminate K).
  destruct (python_loop_counts pre st0 K0) as (st1 & E1 & K1 & _ & T1 & _).
  destruct (python_loop_counts post st1 K1) as (st2 & E2 & _ & _ & T2 & _).
  exists (py_stats st2). rewrite !for_each_app.
  rewrite (python_loop_on_stats (set_total_lines (len (pre ++ ws :: post))))
    by apply set_total_lines_commutes.
  rewrite E1. cbn [bind]. rewrite E2. cbn [bind].
  split; [reflexivity|].
  simpl for_each. rewrite Hb. cbn [bind].
  change (py_on_stats incr_blank
            (py_on_stats (set_total_lines (len (pre ++ ws :: post))) st1))
    with (py_on_stats
            (fun s => incr_blank (set_total_lines (len (pre ++ ws :: post)) s))
            st1).
  rewrite python_loop_on_stats, E2.
  - cbn [bind py_on_stats py_stats]. f_equal.
    apply incr_blank_set_total. rewrite len_insert. f_equal.
    rewrite T2, T1. reflexivity.
  - apply compose_commutes;
      [apply incr_blank_commutes | apply set_total_lines_commutes].
Qed.

(** C2. In every classifier a line of white space only is counted blank
    whatever the local variables of the loop hold (also inside an open block
    comment, doc block or docstring) and leaves them unchanged; so at every
    position of the input such a line adds one blank line and one line to the
    total and changes nothing else of the result. *)
Theorem blank_line_priority (ws : pystr) (pre post : list pystr)
    (language : pystr) :
  whitespace_only ws ->
  ((forall st, swift_body st ws = on_stats incr_blank st)
   /\ (forall st, kotlin_body st ws = on_stats incr_blank st)
   /\ (forall st, python_body st ws = Ok (py_on_stats incr_blank st))
   /\ (forall st, xml_body st ws = xml_on_stats incr_blank st)
   /\ (forall s, markdown_body s ws = incr_blank s)
   /\ (forall s, yaml_body s ws = incr_blank s)
   /\ (forall s, generic_body s ws = incr_blank s))
  /\ classify_swift_lines (pre ++ ws :: post)
     = with_blank_line (classify_swift_lines (pre ++ post))
  /\ classify_kotlin_lines (pre ++ ws :: post)
     = with_blank_line (classify_kotlin_lines (pre ++ post))
  /\ (exists s, classify_python_lines (pre ++ post) = Ok s
        /\ classify_python_lines (pre ++ ws :: post) = Ok (with_blank_line s))
  /\ classify_xml_lines (pre ++ ws :: post)
     = with_blank_line (classify_xml_lines (pre ++ post))
  /\ classify_markdown_lines (pre ++ ws :: post)
     = with_blank_line (classify_markdown_lines (pre ++ post))
  /\ classify_yaml_lines (pre ++ ws :: post)
     = with_blank_line (classify_yaml_lines (pre ++ post))
  /\ classify_generic_lines (pre ++ ws :: post) language
     = with_blank_line (classify_generic_lines (pre ++ post) language).
Proof.
  intros H. pose proof (blank_step ws H) as Hs.
  split; [exact Hs|].
  destruct Hs as (_ & _ & _ & _ & Hm & Hy & Hg).
  split; [apply swift_insert_blank; exact H|].
  split; [apply kotlin_insert_blank; exact H|].
  split; [apply python_insert_blank; exact H|].
  split; [apply xml_insert_blank; exact H|].
  split; [|split].
  - apply (stateless_insert_blank markdown_body);
      [apply markdown_body_counts | apply markdown_body_on_stats | exact Hm].
  - apply (stateless_insert_blank yaml_body);
      [apply yaml_body_counts | apply yaml_body_on_stats | exact Hy].
  - apply (stateless_insert_blank generic_body);
      [apply generic_body_counts | apply generic_body_on_stats | exact Hg].
Qed.

(** A line holding one tab, between the opening and the closing line of a
    doc block. *)
Lemma blank_line_priority_witness :
  whitespace_only [9%N]
  /\ classify_swift_lines (str "/**" :: [9%N] :: [str "*/"])
     = with_blank_line (classify_swift_lines (str "/**" :: [str "*/"]))
  /\ docstring_lines (classify_swift_lines (str "/**" :: [9%N] :: [str "*/"])) = 2
  /\ blank_lines (classify_swift_lines (str "/**" :: [9%N] :: [str "*/"])) = 1.
Proof.
  split; [reflexivity|].
  split; [|split; reflexivity].
  apply (blank_line_priority [9%N] [str "/**"] [str "*/"] []). reflexivity.
Defined.

(** ** The brace-comment classifiers *)

Lemma kotlin_body_is_swift_body (st : BraceLoop) (line : pystr) :
  kotlin_body st line = swift_body st line.
Proof. reflexivity. Qed.

Lemma fold_kotlin_is_fold_swift (lines : list pystr) (st : BraceLoop) :
  fold_left kotlin_body lines st = fold_left swift_body lines st.
Proof.
  revert st. induction lines as [|l lines IH]; intros st; simpl;
    [reflexivity | apply IH].
Qed.

Lemma fold_swift_on_stats (f : FileStats -> FileStats) (lines : list pystr)
    (st : BraceLoop) :
  commutes_with_counting f ->
  fold_left swift_body lines (on_stats f st)
  = on_stats f (fold_left swift_body lines st).
Proof.
  intros Hf. apply (fold_lift on_stats swift_body); [|exact Hf].
  intros g st' line Hg. apply swift_body_on_stats. exact Hg.
Qed.

Lemma set_language_commutes (l : pystr) :
  commutes_with_counting (set_language l).
Proof. intros [] s; reflexivity. Qed.


Lemma startswith_nonempty (p s : pystr) :
  p <> [] -> startswith p s = true -> is_empty s = false.
Proof. destruct p, s; simpl; congruence. Qed.



Lemma incr_docstring_commutes : commutes_with_counting incr_docstring.
Proof. intros [] s; reflexivity. Qed.

Lemma incr_comment_commutes : commutes_with_counting incr_comment.
Proof. intros [] s; reflexivity. Qed.

Lemma fold_kotlin_on_stats (f : FileStats -> FileStats) (lines : list pystr)
    (st : BraceLoop) :
  commutes_with_counting f ->
  fold_left kotlin_body lines (on_stats f st)
  = on_stats f (fold_left kotlin_body lines st).
Proof.
  intros Hf. apply (fold_lift on_stats kotlin_body); [|exact Hf].
  intros g st' line Hg. apply kotlin_body_on_stats. exact Hg.
Qed.

(** C3, as the code has it. In Normal state, a line whose trimmed text
    starts with the doc-block opener and has the closer in what follows the
    opener's three characters is counted once, as documentation; a line that
    starts with the plain opener (and not with the doc-block opener) and has
    the closer in what follows its two characters is counted once, as a
    comment. Either way the classifier stays in Normal state and the
    following lines are classified as if the line had not been there. *)
Theorem single_line_block_collapse (body : BraceLoop -> pystr -> BraceLoop)
    (st : BraceLoop) (line : pystr) (post : list pystr) :
  body = swift_body \/ body = kotlin_body ->
  normal st ->
  (startswith (str "/**") (strip line) = true ->
   contains (str "*/") (drop 3 (strip line)) = true ->
   body st line = on_stats incr_docstring st
   /\ normal (body st line)
   /\ fold_left body (line :: post) st
      = on_stats incr_docstring (fold_left body post st))
  /\ (startswith (str "/**") (strip line) = false ->
      startswith (str "/*") (strip line) = true ->
      contains (str "*/") (drop 2 (strip line)) = true ->
      body st line = on_stats incr_comment st
      /\ normal (body st line)
      /\ fold_left body (line :: post) st
         = on_stats incr_comment (fold_left body post st)).
Proof.
  intros Hbody [Hb Hd]. destruct st as [s bc db]. cbn in Hb, Hd. subst bc db.
  assert (Hfold : forall f lines st',
             commutes_with_counting f ->
             fold_left body lines (on_stats f st')
             = on_stats f (fold_left body lines st')).
  { destruct Hbody as [-> | ->];
      [exact fold_swift_on_stats | exact fold_kotlin_on_stats]. }
  split.
  - intros H1 H2.
    assert (Hne : is_empty (strip line) = false)
      by (apply (startswith_nonempty (str "/**")); [discriminate | exact H1]).
    assert (E : body (mkBraceLoop s false false) line
                = on_stats incr_docstring (mkBraceLoop s false false)).
    { destruct Hbody as [-> | ->]; unfold swift_body, kotlin_body;
        rewrite Hne; cbn [in_block_comment in_doc_block orb];
        rewrite H1, H2; reflexivity. }
    split; [exact E|]. split; [rewrite E; split; reflexivity|].
    simpl fold_left. rewrite E. apply Hfold, incr_docstring_commutes.
  - intros H0 H1 H2.
    assert (Hne : is_empty (strip line) = false)
      by (apply (startswith_nonempty (str "/*")); [discriminate | exact H1]).
    assert (E : body (mkBraceLoop s false false) line
                = on_stats incr_comment (mkBraceLoop s false false)).
    { destruct Hbody as [-> | ->]; unfold swift_body, kotlin_body;
        rewrite Hne; cbn [in_block_comment in_doc_block orb];
        rewrite H0, H1, H2; reflexivity. }
    split; [exact E|]. split; [rewrite E; split; reflexivity|].
    simpl fold_left. rewrite E. apply Hfold, incr_comment_commutes.
Qed.

(** Scenario 2 of the specification, and a one-line plain comment. *)
Lemma single_line_block_collapse_witness :
  swift_body (mkBraceLoop (new_FileStats [] []) false false)
    (str "/** one-liner */")
  = on_stats incr_docstring (mkBraceLoop (new_FileStats [] []) false false)
  /\ kotlin_body (mkBraceLoop (new_FileStats [] []) false false)
       (str "  /* note */ ")
     = on_stats incr_comment (mkBraceLoop (new_FileStats [] []) false false).
Proof.
  split.
  - exact (proj1 (proj1 (single_line_block_collapse swift_body
                           (mkBraceLoop (new_FileStats [] []) false false)
                           (str "/** one-liner */") [str "foo()"]
                           (or_introl eq_refl) (conj eq_refl eq_refl))
                    eq_refl eq_refl)).
  - exact (proj1 (proj2 (single_line_block_collapse kotlin_body
                           (mkBraceLoop (new_FileStats [] []) false false)
                           (str "  /* note */ ") []
                           (or_intror eq_refl) (conj eq_refl eq_refl))
                    eq_refl eq_refl eq_refl)).
Defined.

(** C3 as it is worded fails: the trimmed line [/**/] starts with an opener
    and contains the closer (it is the plain opener followed by the closer),
    yet the Swift classifier leaves Normal state on it, and counts the line
    after it as documentation. *)
Lemma single_line_block_collapse_counterexample :
  ~ (forall st line,
       normal st ->
       startswith (str "/**") (strip line) = true ->
       contains (str "*/") (strip line) = true ->
       normal (swift_body st line))
  /\ (startswith (str "/*") (strip (str "/**/")) = true
      /\ contains (str "*/") (drop 2 (strip (str "/**/"))) = true)
  /\ in_doc_block
       (swift_body (mkBraceLoop (new_FileStats [] []) false false) (str "/**/"))
     = true
  /\ comment_lines (classify_swift_lines [str "/**/"; str "let x = 1"]) = 0
  /\ code_lines (classify_swift_lines [str "/**/"; str "let x = 1"]) = 0
  /\ docstring_lines (classify_swift_lines [str "/**/"; str "let x = 1"]) = 2.
Proof.
  split; [|repeat split; reflexivity].
  intros H.
  destruct (H (mkBraceLoop (new_FileStats [] []) false false) (str "/**/")
              (conj eq_refl eq_refl) eq_refl eq_refl) as [_ Hd].
  discriminate Hd.
Qed.

(** C9. In Normal state a line whose trimmed text is exactly [/**/] is
    counted as documentation and leaves the doc block open, in the Swift and
    in the Kotlin classifier: the closer is looked for after the three
    characters of the opener only. On the two lines [/**/] and [x] the
    result is two documentation lines and no code line. *)
Theorem empty_block_opens_doc_block (st : BraceLoop) (line : pystr) :
  normal st ->
  strip line = str "/**/" ->
  (swift_body st line = set_in_doc_block true (on_stats incr_docstring st)
   /\ kotlin_body st line = set_in_doc_block true (on_stats incr_docstring st)
   /\ in_doc_block (swift_body st line) = true
   /\ in_doc_block (kotlin_body st line) = true)
  /\ contains (str "*/") (drop 3 (str "/**/")) = false
  /\ (docstring_lines (classify_swift_lines [str "/**/"; str "x"]) = 2
      /\ code_lines (classify_swift_lines [str "/**/"; str "x"]) = 0
      /\ docstring_lines (classify_kotlin_lines [str "/**/"; str "x"]) = 2
      /\ code_lines (classify_kotlin_lines [str "/**/"; str "x"]) = 0).
Proof.
  intros [Hb Hd] Hs. destruct st as [s bc db]. cbn in Hb, Hd. subst bc db.
  split; [|split; [reflexivity | repeat split; reflexivity]].
  unfold swift_body, kotlin_body. rewrite Hs. repeat split; reflexivity.
Qed.

Lemma empty_block_opens_doc_block_witness :
  in_doc_block
    (swift_body (mkBraceLoop (new_FileStats [] []) false false)
       (str "   /**/  "))
  = true.
Proof.
  exact (proj1 (proj2 (proj2 (proj1 (empty_block_opens_doc_block
           (mkBraceLoop (new_FileStats [] []) false false) (str "   /**/  ")
           (conj eq_refl eq_refl) eq_refl))))).
Defined.

(** C8. On every sequence of lines the Kotlin classifier returns the record
    of the Swift classifier with the language tag [Kotlin] in place of
    [Swift]: the five counters are the same. *)
Theorem kotlin_counts_as_swift (lines : list pystr) :
  classify_kotlin_lines lines
  = set_language (str "Kotlin") (classify_swift_lines lines)
  /\ (total_lines (classify_kotlin_lines lines)
      = total_lines (classify_swift_lines lines)
      /\ code_lines (classify_kotlin_lines lines)
         = code_lines (classify_swift_lines lines)
      /\ comment_lines (classify_kotlin_lines lines)
         = comment_lines (classify_swift_lines lines)
      /\ docstring_lines (classify_kotlin_lines lines)
         = docstring_lines (classify_swift_lines lines)
      /\ blank_lines (classify_kotlin_lines lines)
         = blank_lines (classify_swift_lines lines))
  /\ language (classify_swift_lines lines) = str "Swift"
  /\ language (classify_kotlin_lines lines) = str "Kotlin"
  /\ str "Swift" <> str "Kotlin".
Proof.
  assert (E : classify_kotlin_lines lines
              = set_language (str "Kotlin") (classify_swift_lines lines)).
  { unfold classify_kotlin_lines, classify_swift_lines. cbv zeta.
    rewrite fold_kotlin_is_fold_swift.
    change (mkBraceLoop (set_total_lines (len lines)
              (new_FileStats (str "") (str "Kotlin"))) false false)
      with (on_stats (set_language (str "Kotlin"))
              (mkBraceLoop (set_total_lines (len lines)
                 (new_FileStats (str "") (str "Swift"))) false false)).
    rewrite fold_swift_on_stats by apply set_language_commutes.
    reflexivity. }
  assert (L : language (classify_swift_lines lines) = str "Swift").
  { unfold classify_swift_lines. cbv zeta.
    change (mkBraceLoop (set_total_lines (len lines)
              (new_FileStats (str "") (str "Swift"))) false false)
      with (on_stats (set_language (str "Swift"))
              (mkBraceLoop (set_total_lines (len lines)
                 (new_FileStats (str "") (str "Swift"))) false false)).
    rewrite fold_swift_on_stats by apply set_language_commutes.
    reflexivity. }
  split; [exact E|]. rewrite E.
  split; [repeat split; reflexivity|].
  split; [exact L|]. split; [reflexivity | discriminate].
Qed.

(** ** The Python classifier *)





(** A docstring opened by three double quotes runs over a line of three
    single quotes and ends at the next three double quotes. *)
Example docstring_spans_other_delimiter :
  classify_python_lines
    [triple_double; str "'''"; str "still inside"; triple_double; str "x = 1"]
  = Ok (mkFileStats [] 5 1 0 4 0 (str "Python")).
Proof. reflexivity. Qed.

(** ** [main] *)

(** C7. When the root argument resolves to a path that is not a directory,
    [main] writes one message to the error stream and exits with status 1;
    nothing else happens: no traversal, no report, no file written. *)
Theorem invalid_root_is_fatal
    (abspath : pystr -> pystr) (isdir : pystr -> bool)
    (walk_result : pystr -> list (pystr * PlatformStats))
    (generate_markdown : list (pystr * PlatformStats) -> Z -> pystr)
    (json_dumps : list (pystr * PlatformStats) -> pystr)
    (args : Args) (tr : list event) :
  isdir (abspath (root args)) = false ->
  main abspath isdir walk_result generate_markdown json_dumps args tr
  = (Raise (SystemExit 1),
     tr ++ [PrintErr (str "Error: " ++ abspath (root args)
                      ++ str " is not a directory")])
  /\ exit_status
       (fst (main abspath isdir walk_result generate_markdown json_dumps args tr))
     = 1
  /\ exit_status
       (fst (main abspath isdir walk_result generate_markdown json_dumps args tr))
     <> 0
  /\ existsb is_traversal_or_output
       (snd (main abspath isdir walk_result generate_markdown json_dumps args []))
     = false.
Proof.
  intros H.
  assert (E : forall tr0,
             main abspath isdir walk_result generate_markdown json_dumps args tr0
             = (Raise (SystemExit 1),
                tr0 ++ [PrintErr (str "Error: " ++ abspath (root args)
                                  ++ str " is not a directory")])).
  { intros tr0. unfold main. rewrite H. reflexivity. }
  rewrite !E. cbn [fst snd exit_status].
  split; [reflexivity|]. split; [reflexivity|]. split; [discriminate|].
  reflexivity.
Qed.

(** A run on a file system without any directory. *)
Lemma invalid_root_is_fatal_witness :
  main (fun p => p) (fun _ => false) (fun _ => []) (fun _ _ => [])
    (fun _ => []) (mkArgs (str "/nowhere") 20 false None) []
  = (Raise (SystemExit 1),
     [PrintErr (str "Error: /nowhere is not a directory")]).
Proof.
  exact (proj1 (invalid_root_is_fatal (fun p => p) (fun _ => false)
                  (fun _ => []) (fun _ _ => []) (fun _ => [])
                  (mkArgs (str "/nowhere") 20 false None) [] eq_refl)).
Defined.

(** With a directory as root the traversal is the first thing that
    happens. *)
Lemma valid_root_is_walked
    (abspath : pystr -> pystr) (isdir : pystr -> bool)
    (walk_result : pystr -> list (pystr * PlatformStats))
    (generate_markdown : list (pystr * PlatformStats) -> Z -> pystr)
    (json_dumps : list (pystr * PlatformStats) -> pystr)
    (args : Args) :
  isdir (abspath (root args)) = true ->
  exists rest,
    snd (main abspath isdir walk_result generate_markdown json_dumps args [])
    = WalkProject (abspath (root args)) :: rest.
Proof.
  intros H. unfold main. rewrite H.
  unfold walk_project, io_bind, emit, ret. cbn [negb app].
  destruct (is_nil (walk_result (abspath (root args)))).
  - eexists. reflexivity.
  - destruct (markdown args) as [target|].
    + destruct (bool_decide (target = str "-")); eexists; reflexivity.
    + destruct (json args); eexists; reflexivity.
Qed.

(** ** Aggregation *)

Lemma fold_add_acc (xs : list Z) (a : Z) :
  fold_left Z.add xs a = a + sum xs.
Proof.
  unfold sum. revert a.
  induction xs as [|x xs IH]; intros a; cbn [fold_left]; [lia|].
  rewrite (IH (a + x)), (IH (0 + x)). lia.
Qed.

Lemma sum_cons (x : Z) (xs : list Z) : sum (x :: xs) = x + sum xs.
Proof. unfold sum at 1. simpl. apply fold_add_acc. Qed.

Lemma sum_app (xs ys : list Z) : sum (xs ++ ys) = sum xs + sum ys.
Proof.
  induction xs as [|x xs IH]; simpl; [reflexivity|].
  rewrite !sum_cons, IH. lia.
Qed.

Lemma sum_Permutation (xs ys : list Z) : Permutation xs ys -> sum xs = sum ys.
Proof.
  induction 1 as [|x xs ys _ IH|x y xs|xs ys zs _ IH1 _ IH2].
  - reflexivity.
  - rewrite !sum_cons, IH. reflexivity.
  - rewrite !sum_cons. lia.
  - rewrite IH1. exact IH2.
Qed.

Lemma totals_add_comm (a b : Totals) : totals_add a b = totals_add b a.
Proof. unfold totals_add. f_equal; lia. Qed.

Lemma totals_add_assoc (a b c : Totals) :
  totals_add a (totals_add b c) = totals_add (totals_add a b) c.
Proof. unfold totals_add. cbn. f_equal; lia. Qed.

Lemma totals_add_zero_l (a : Totals) : totals_add totals_zero a = a.
Proof. destruct a. reflexivity. Qed.

Lemma platform_totals_Permutation (n n' : pystr) (fs fs' : list FileStats) :
  Permutation fs fs' ->
  platform_totals (mkPlatformStats n fs) = platform_totals (mkPlatformStats n' fs').
Proof.
  intros H. unfold platform_totals, PlatformStats.total_files,
    PlatformStats.total_lines, PlatformStats.code_lines,
    PlatformStats.comment_lines, PlatformStats.docstring_lines,
    PlatformStats.blank_lines, len. cbn [files].
  f_equal;
    [ f_equal; apply Permutation_length, H
    | apply sum_Permutation, Permutation_map, H .. ].
Qed.

Lemma platform_totals_app (n : pystr) (fs gs : list FileStats) :
  platform_totals (mkPlatformStats n (fs ++ gs))
  = totals_add (platform_totals (mkPlatformStats n fs))
      (platform_totals (mkPlatformStats n gs)).
Proof.
  unfold platform_totals, totals_add, PlatformStats.total_files,
    PlatformStats.total_lines, PlatformStats.code_lines,
    PlatformStats.comment_lines, PlatformStats.docstring_lines,
    PlatformStats.blank_lines, len.
  cbn [files t_files t_total t_code t_comments t_docs t_blank].
  rewrite !map_app, !sum_app, length_app. f_equal. lia.
Qed.

Lemma fold_totals_add_acc (parts : list Totals) (a : Totals) :
  fold_left totals_add parts a = totals_add a (merge_totals parts).
Proof.
  unfold merge_totals. revert a.
  induction parts as [|p parts IH]; intros a; simpl.
  - destruct a. unfold totals_add. cbn. f_equal; lia.
  - rewrite (IH (totals_add a p)), (IH (totals_add totals_zero p)).
    rewrite totals_add_zero_l. symmetry. apply totals_add_assoc.
Qed.

(** Aggregating the parts and summing gives the aggregate of their
    concatenation. *)
Lemma merge_totals_concat (n : pystr) (parts : list (list FileStats)) :
  merge_totals (map (fun part => platform_totals (mkPlatformStats n part)) parts)
  = platform_totals (mkPlatformStats n (concat parts)).
Proof.
  induction parts as [|p parts IH]; [reflexivity|].
  cbn [map concat]. unfold merge_totals. simpl fold_left.
  rewrite fold_totals_add_acc, totals_add_zero_l, IH.
  symmetry. apply platform_totals_app.
Qed.

Lemma sorted_Permutation (xs ys : list Z) :
  Permutation xs ys -> sorted xs = sorted ys.
Proof.
  intros H. unfold sorted.
  apply (Sorted_unique Z.le).
  - apply Sorted_merge_sort. apply _.
  - apply Sorted_merge_sort. apply _.
  - etransitivity; [apply merge_sort_Permutation|].
    etransitivity; [exact H|]. symmetry. apply merge_sort_Permutation.
Qed.

(** *** [_lang_stats] *)

Section LangStatsFacts.

Variable suffix_lower : pystr -> pystr.

(** The six updates of one turn of the loop amount to adding the file's row
    to the row of its language. *)
Lemma lang_stats_body_row (stats : gmap pystr Totals) (f : FileStats) :
  lang_stats_body suffix_lower stats f
  = if negb (bool_decide (suffix_lower (path f) ∈ SOURCE_EXTENSIONS))
    then stats
    else <[language f :=
             totals_add (default totals_zero (stats !! language f))
               (file_row f)]> stats.
Proof.
  unfold lang_stats_body.
  destruct (negb (bool_decide (suffix_lower (path f) ∈ SOURCE_EXTENSIONS)));
    [reflexivity|].
  unfold add_to.
  rewrite !lookup_insert_eq, !insert_insert_eq. cbn. reflexivity.
Qed.

Lemma lang_stats_body_comm (stats : gmap pystr Totals) (f g : FileStats) :
  lang_stats_body suffix_lower (lang_stats_body suffix_lower stats f) g
  = lang_stats_body suffix_lower (lang_stats_body suffix_lower stats g) f.
Proof.
  rewrite !lang_stats_body_row.
  destruct (negb (bool_decide (suffix_lower (path f) ∈ SOURCE_EXTENSIONS)));
    destruct (negb (bool_decide (suffix_lower (path g) ∈ SOURCE_EXTENSIONS)));
    try reflexivity.
  destruct (decide (language f = language g)) as [E|N].
  - rewrite E, !lookup_insert_eq, !insert_insert_eq.
    cbn [default from_option id].
    rewrite <- !totals_add_assoc, (totals_add_comm (file_row f)).
    reflexivity.
  - rewrite !lookup_insert_ne by congruence.
    apply insert_insert_ne. congruence.
Qed.

Lemma fold_lang_stats_Permutation (fs fs' : list FileStats)
    (stats : gmap pystr Totals) :
  Permutation fs fs' ->
  fold_left (lang_stats_body suffix_lower) fs stats
  = fold_left (lang_stats_body suffix_lower) fs' stats.
Proof.
  intros H. revert stats.
  induction H as [|x xs ys _ IH|x y xs|xs ys zs _ IH1 _ IH2]; intros stats.
  - reflexivity.
  - simpl. apply IH.
  - simpl. rewrite lang_stats_body_comm. reflexivity.
  - rewrite IH1. apply IH2.
Qed.

Lemma lang_stats_flat (platforms : list PlatformStats)
    (stats : gmap pystr Totals) :
  fold_left (fun stats ps => fold_left (lang_stats_body suffix_lower) (files ps) stats)
    platforms stats
  = fold_left (lang_stats_body suffix_lower) (concat (map files platforms)) stats.
Proof.
  revert stats. induction platforms as [|ps platforms IH]; intros stats;
    [reflexivity|].
  cbn [map concat fold_left]. rewrite fold_left_app. apply IH.
Qed.

Lemma lang_stats_Permutation (platforms platforms' : list PlatformStats) :
  Permutation (concat (map files platforms)) (concat (map files platforms')) ->
  _lang_stats suffix_lower platforms = _lang_stats suffix_lower platforms'.
Proof.
  intros H. unfold _lang_stats. rewrite !lang_stats_flat.
  apply fold_lang_stats_Permutation, H.
Qed.

End LangStatsFacts.

(** C6. The aggregate totals of a list of file records (number of files and
    the sums of the five counters), and the sorted list of file lengths, are
    the same for every arrangement of the list; cutting the list into parts
    in any way, aggregating each part and adding up the parts gives the
    totals of the whole list, the addition of totals being commutative and
    associative; and the per-language totals depend only on which files the
    platforms hold, not on their grouping or order. *)
Theorem aggregation_order_independent (suffix_lower : pystr -> pystr)
    (n n' : pystr) (fs fs' : list FileStats) (parts : list (list FileStats))
    (platforms platforms' : list PlatformStats) :
  Permutation fs fs' ->
  Permutation (concat parts) fs ->
  Permutation (concat (map files platforms)) (concat (map files platforms')) ->
  platform_totals (mkPlatformStats n fs) = platform_totals (mkPlatformStats n' fs')
  /\ PlatformStats.file_lengths (mkPlatformStats n fs)
     = PlatformStats.file_lengths (mkPlatformStats n' fs')
  /\ merge_totals
       (map (fun part => platform_totals (mkPlatformStats n part)) parts)
     = platform_totals (mkPlatformStats n fs)
  /\ _lang_stats suffix_lower platforms = _lang_stats suffix_lower platforms'
  /\ (forall a b, totals_add a b = totals_add b a)
  /\ (forall a b c,
        totals_add a (totals_add b c) = totals_add (totals_add a b) c).
Proof.
  intros Hperm Hparts Hplat.
  split; [apply platform_totals_Permutation, Hperm|].
  split; [apply sorted_Permutation, Permutation_map, Hperm|].
  split; [rewrite merge_totals_concat;
          apply platform_totals_Permutation, Hparts|].
  split; [apply lang_stats_Permutation, Hplat|].
  split; [exact totals_add_comm | exact totals_add_assoc].
Qed.

(** Two files scanned in one order in one platform, and in the other order
    in two platforms. *)
Lemma aggregation_order_independent_witness :
  let a := mkFileStats (str ".py") 10 6 1 2 1 (str "Python") in
  let b := mkFileStats (str ".swift") 7 4 1 1 1 (str "Swift") in
  platform_totals (mkPlatformStats (str "iOS") [a; b])
  = platform_totals (mkPlatformStats (str "Scripts") [b; a])
  /\ merge_totals
       (map (fun part => platform_totals (mkPlatformStats (str "iOS") part))
          [[b]; [a]])
     = platform_totals (mkPlatformStats (str "iOS") [a; b])
  /\ _lang_stats (fun p => p) [mkPlatformStats (str "iOS") [a; b]]
     = _lang_stats (fun p => p)
         [mkPlatformStats (str "iOS") [b]; mkPlatformStats (str "Scripts") [a]].
Proof.
  intros a b.
  pose proof (aggregation_order_independent (fun p => p)
                (str "iOS") (str "Scripts") [a; b] [b; a] [[b]; [a]]
                [mkPlatformStats (str "iOS") [a; b]]
                [mkPlatformStats (str "iOS") [b];
                 mkPlatformStats (str "Scripts") [a]]
                (perm_swap b a []) (perm_swap a b []) (perm_swap b a []))
    as (H1 & _ & H3 & H4 & _).
  split; [exact H1|]. split; [exact H3 | exact H4].
Defined.

(** ** Percentiles *)











Lemma sorted_perm (xs : list Z) : Permutation (sorted xs) xs.
Proof. apply merge_sort_Permutation. Qed.

Lemma len_sorted (xs : list Z) : len (sorted xs) = len xs.
Proof. unfold len. f_equal. apply Permutation_length, sorted_perm. Qed.


Lemma len_pos {A : Type} (xs : list A) : xs <> [] -> 1 <= len xs.
Proof. unfold len. destruct xs; [congruence | simpl length; lia]. Qed.

(** An index between 0 and [len(xs) - 1] reads an element of the list. *)
Lemma getitem_in_range (xs : list Z) (j : Z) :
  0 <= j <= len xs - 1 ->
  exists x, getitem xs j = Ok x /\ In x xs.
Proof.
  intros Hj. unfold getitem.
  assert (H1 : (j <? 0) = false) by (apply Z.ltb_ge; lia).
  assert (H2 : (len xs <=? j) = false) by (apply Z.leb_gt; lia).
  cbv zeta. rewrite H1. rewrite H1, H2. cbn [orb].
  destruct (nth_error xs (Z.to_nat j)) as [x|] eqn:E.
  - exists x. split; [reflexivity | eapply nth_error_In, E].
  - apply nth_error_None in E. unfold len in Hj. lia.
Qed.






(** ** The scenarios of the specification *)

Example scenario_doc_block :
  classify_swift_lines
    (map str ["/**"; " * doc"; " */"; "let x = 1"; ""; "// note"]%string)
  = mkFileStats [] 6 1 1 3 1 (str "Swift").
Proof. reflexivity. Qed.

Example scenario_one_line_doc :
  classify_swift_lines (map str ["/** one-liner */"; "foo()"]%string)
  = mkFileStats [] 2 1 0 1 0 (str "Swift")
  /\ normal (fold_left swift_body
               (map str ["/** one-liner */"; "foo()"]%string)
               (mkBraceLoop (new_FileStats [] []) false false)).
Proof. repeat split; reflexivity. Qed.

Example scenario_blank_lines :
  classify_swift_lines [str "   "; [9%N]] = mkFileStats [] 2 0 0 0 2 (str "Swift").
Proof. reflexivity. Qed.

Example scenario_docstring :
  classify_python_lines
    [triple_double; str "doc line"; triple_double; str "x = 1"; str "# note"]
  = Ok (mkFileStats [] 5 1 1 3 0 (str "Python")).
Proof. reflexivity. Qed.

Example scenario_one_line_docstring :
  classify_python_lines
    [triple_double ++ str "single line" ++ triple_double; str "y = 2"]
  = Ok (mkFileStats [] 2 1 0 1 0 (str "Python")).
Proof. reflexivity. Qed.

(** * Further properties *)

(** ** What the classifiers count *)

(** A loop whose body leaves a counter alone leaves it alone. *)
Lemma loop_keeps {S : Type} (proj : S -> FileStats) (body : S -> pystr -> S)
    (field : FileStats -> Z) :
  (forall st line, field (proj (body st line)) = field (proj st)) ->
  forall lines st, field (proj (fold_left body lines st)) = field (proj st).
Proof.
  intros H lines. induction lines as [|l lines IH]; intros st; simpl;
    [reflexivity|]. rewrite IH. apply H.
Qed.

(** A loop whose body adds one blank line exactly on white-space lines counts
    the white-space lines. *)
Lemma loop_blank_count {S : Type} (proj : S -> FileStats)
    (body : S -> pystr -> S) :
  (forall st line,
     blank_lines (proj (body st line))
     = blank_lines (proj st) + (if forallb isspace line then 1 else 0)) ->
  forall lines st,
    blank_lines (proj (fold_left body lines st))
    = blank_lines (proj st) + blank_count lines.
Proof.
  intros H lines. unfold blank_count, len.
  induction lines as [|l lines IH]; intros st; simpl; [lia|].
  rewrite IH, H. destruct (forallb isspace l); simpl length; lia.
Qed.

Lemma swift_body_blank (st : BraceLoop) (line : pystr) :
  blank_lines (stats (swift_body st line))
  = blank_lines (stats st) + (if forallb isspace line then 1 else 0).
Proof.
  destruct st as [s bc db]. unfold swift_body. rewrite is_empty_strip.
  cbn [in_block_comment in_doc_block].
  destruct (forallb isspace line); [reflexivity|].
  split_ifs; cbn; lia.
Qed.

Lemma kotlin_body_blank (st : BraceLoop) (line : pystr) :
  blank_lines (stats (kotlin_body st line))
  = blank_lines (stats st) + (if forallb isspace line then 1 else 0).
Proof.
  destruct st as [s bc db]. unfold kotlin_body. rewrite is_empty_strip.
  cbn [in_block_comment in_doc_block].
  destruct (forallb isspace line); [reflexivity|].
  split_ifs; cbn; lia.
Qed.

Lemma xml_body_blank (st : XmlLoop) (line : pystr) :
  blank_lines (xml_stats (xml_body st line))
  = blank_lines (xml_stats st) + (if forallb isspace line then 1 else 0).
Proof.
  destruct st as [s c]. unfold xml_body. rewrite is_empty_strip.
  cbn [in_comment xml_stats].
  destruct (forallb isspace line); [reflexivity|].
  split_ifs; cbn; lia.
Qed.

Lemma markdown_body_blank (s : FileStats) (line : pystr) :
  blank_lines (markdown_body s line)
  = blank_lines s + (if forallb isspace line then 1 else 0).
Proof.
  unfold markdown_body. rewrite is_empty_strip.
  destruct (forallb isspace line); cbn; lia.
Qed.

Lemma yaml_body_blank (s : FileStats) (line : pystr) :
  blank_lines (yaml_body s line)
  = blank_lines s + (if forallb isspace line then 1 else 0).
Proof.
  unfold yaml_body. rewrite is_empty_strip.
  destruct (forallb isspace line); [reflexivity|]. split_ifs; cbn; lia.
Qed.

Lemma generic_body_blank (s : FileStats) (line : pystr) :
  blank_lines (generic_body s line)
  = blank_lines s + (if forallb isspace line then 1 else 0).
Proof.
  unfold generic_body. rewrite is_empty_strip.
  destruct (forallb isspace line); [reflexivity|]. split_ifs; cbn; lia.
Qed.

Lemma python_loop_blank (lines : list pystr) (st st' : PythonLoop) :
  for_each python_body lines st = Ok st' ->
  blank_lines (py_stats st') = blank_lines (py_stats st) + blank_count lines.
Proof.
  unfold blank_count, len. revert st.
  induction lines as [|l lines IH]; intros st; simpl for_each.
  - intros E. inversion E. simpl. lia.
  - destruct (python_body st l) as [st1|e] eqn:E1; cbn [bind]; [|discriminate].
    intros E. rewrite (IH st1 E).
    assert (H1 : blank_lines (py_stats st1)
                 = blank_lines (py_stats st)
                   + (if forallb isspace l then 1 else 0)).
    { revert E1. destruct st as [s ind dd]. unfold python_body.
      rewrite is_empty_strip.
      cbn [in_docstring docstring_delimiter py_stats].
      destruct (forallb isspace l).
      { intros E1. inversion E1. reflexivity. }
      destruct ind.
      { destruct dd as [d|]; cbn [in_str bind]; [|discriminate].
        destruct (contains d (strip l)); intros E1; inversion E1; cbn; lia. }
      split_ifs; intros E1; inversion E1; cbn; lia. }
    rewrite H1. simpl List.filter. destruct (forallb isspace l); simpl length; lia.
Qed.

(** X1. Every classifier counts as blank exactly the lines that consist of
    white space only. *)
Theorem blank_lines_exact (lines : list pystr) (language : pystr) :
  blank_lines (classify_swift_lines lines) = blank_count lines
  /\ blank_lines (classify_kotlin_lines lines) = blank_count lines
  /\ (exists s, classify_python_lines lines = Ok s
        /\ blank_lines s = blank_count lines)
  /\ blank_lines (classify_xml_lines lines) = blank_count lines
  /\ blank_lines (classify_markdown_lines lines) = blank_count lines
  /\ blank_lines (classify_yaml_lines lines) = blank_count lines
  /\ blank_lines (classify_generic_lines lines language) = blank_count lines.
Proof.
  refine (conj _ (conj _ (conj _ (conj _ (conj _ (conj _ _)))))).
  - unfold classify_swift_lines. cbv zeta.
    rewrite (loop_blank_count stats swift_body swift_body_blank). reflexivity.
  - unfold classify_kotlin_lines. cbv zeta.
    rewrite (loop_blank_count stats kotlin_body kotlin_body_blank). reflexivity.
  - unfold classify_python_lines. cbv zeta.
    destruct (python_loop_counts lines
                (mkPythonLoop (set_total_lines (len lines)
                   (new_FileStats (str "") (str "Python"))) false None))
      as (st' & E & _); [intros H; discriminate H|].
    rewrite E. cbn [bind]. exists (py_stats st'). split; [reflexivity|].
    rewrite (python_loop_blank _ _ _ E). reflexivity.
  - unfold classify_xml_lines. cbv zeta.
    rewrite (loop_blank_count xml_stats xml_body xml_body_blank). reflexivity.
  - unfold classify_markdown_lines. cbv zeta.
    rewrite (loop_blank_count (fun s => s) markdown_body markdown_body_blank).
    reflexivity.
  - unfold classify_yaml_lines. cbv zeta.
    rewrite (loop_blank_count (fun s => s) yaml_body yaml_body_blank).
    reflexivity.
  - unfold classify_generic_lines. cbv zeta.
    rewrite (loop_blank_count (fun s => s) generic_body generic_body_blank).
    reflexivity.
Qed.

(** X2. The Markdown classifier never counts a line as code or as a
    comment: its documentation counter is the number of lines that are not
    blank. The XML, YAML and generic classifiers never count a line as
    documentation. *)
Theorem categories_never_produced (lines : list pystr) (language : pystr) :
  (code_lines (classify_markdown_lines lines) = 0
   /\ comment_lines (classify_markdown_lines lines) = 0
   /\ docstring_lines (classify_markdown_lines lines)
      = len lines - blank_count lines)
  /\ docstring_lines (classify_xml_lines lines) = 0
  /\ docstring_lines (classify_yaml_lines lines) = 0
  /\ docstring_lines (classify_generic_lines lines language) = 0.
Proof.
  assert (Hc : code_lines (classify_markdown_lines lines) = 0).
  { unfold classify_markdown_lines. cbv zeta.
    rewrite (loop_keeps (fun s => s) markdown_body code_lines); [reflexivity|].
    intros s l. unfold markdown_body. split_ifs; reflexivity. }
  assert (Hm : comment_lines (classify_markdown_lines lines) = 0).
  { unfold classify_markdown_lines. cbv zeta.
    rewrite (loop_keeps (fun s => s) markdown_body comment_lines); [reflexivity|].
    intros s l. unfold markdown_body. split_ifs; reflexivity. }
  split; [split; [exact Hc | split; [exact Hm|]]|].
  - assert (Hb : blank_lines (classify_markdown_lines lines) = blank_count lines).
    { unfold classify_markdown_lines. cbv zeta.
      rewrite (loop_blank_count (fun s => s) markdown_body markdown_body_blank).
      reflexivity. }
    assert (Hp : partition_of lines (classify_markdown_lines lines)).
    { unfold classify_markdown_lines.
      apply (loop_partition (fun s => s) markdown_body);
        [apply markdown_body_counts |..]; apply new_FileStats_fresh. }
    destruct Hp as (Hsum & Htot & _). unfold counted in Hsum. lia.
  - split; [|split].
    + unfold classify_xml_lines. cbv zeta.
      rewrite (loop_keeps xml_stats xml_body docstring_lines); [reflexivity|].
      intros [s c] l. unfold xml_body. cbn [in_comment xml_stats].
      split_ifs; reflexivity.
    + unfold classify_yaml_lines. cbv zeta.
      rewrite (loop_keeps (fun s => s) yaml_body docstring_lines); [reflexivity|].
      intros s l. unfold yaml_body. split_ifs; reflexivity.
    + unfold classify_generic_lines. cbv zeta.
      rewrite (loop_keeps (fun s => s) generic_body docstring_lines);
        [reflexivity|].
      intros s l. unfold generic_body. split_ifs; reflexivity.
Qed.

(** ** Classifying a concatenation *)

Lemma carry_on_commutes (a : FileStats) (n : Z) :
  commutes_with_counting (carry_on a n).
Proof.
  intros [] s; unfold carry_on; cbn;
    repeat match goal with
      | |- context [?x + 1 + ?y] => replace (x + 1 + y) with (x + y + 1) by lia
      end;
    reflexivity.
Qed.

Section Compose.

Context {S : Type}.
Variable proj : S -> FileStats.
Variable lift : (FileStats -> FileStats) -> S -> S.
Variable body : S -> pystr -> S.
Variable fresh : FileStats -> S.

Hypothesis proj_lift : forall f st, proj (lift f st) = f (proj st).
Hypothesis lift_fresh : forall f s, lift f (fresh s) = fresh (f s).
Hypothesis body_lift :
  forall f st line,
    commutes_with_counting f -> body (lift f st) line = lift f (body st line).
Hypothesis body_counts :
  forall st line, counts_one_line (proj st) (proj (body st line)).
Hypothesis proj_fresh : forall s, proj (fresh s) = s.

(** When the loop over [l1] ends with its flags as at the start, the loop
    over [l1 ++ l2] ends with the sums of the two separate loops. *)
Lemma fold_compose (l1 l2 : list pystr) (p lang : pystr) :
  let start n := fresh (set_total_lines n (new_FileStats p lang)) in
  fold_left body l1 (start (len l1))
  = fresh (proj (fold_left body l1 (start (len l1)))) ->
  sums_to (proj (fold_left body l1 (start (len l1))))
    (proj (fold_left body l2 (start (len l2))))
    (proj (fold_left body (l1 ++ l2) (start (len (l1 ++ l2))))).
Proof.
  intros start Hend.
  set (A := fold_left body l1 (start (len l1))) in *.
  set (B := fold_left body l2 (start (len l2))).
  set (n := len (l1 ++ l2)).
  set (c1 := proj A) in *.
  assert (E : fold_left body (l1 ++ l2) (start n) = lift (carry_on c1 n) B).
  { rewrite fold_left_app.
    change (start n) with (fresh (set_total_lines n
              (set_total_lines (len l1) (new_FileStats p lang)))).
    rewrite <- lift_fresh.
    rewrite (fold_lift lift body body_lift (set_total_lines n))
      by apply set_total_lines_commutes.
    fold (start (len l1)). fold A. rewrite Hend, lift_fresh.
    change (set_total_lines n c1)
      with (carry_on c1 n (set_total_lines (len l2) (new_FileStats p lang))).
    rewrite <- lift_fresh.
    apply (fold_lift lift body body_lift), carry_on_commutes. }
  rewrite E, proj_lift.
  destruct (loop_counts proj body body_counts l1 (start (len l1)))
    as (_ & Ta & _).
  destruct (loop_counts proj body body_counts l2 (start (len l2)))
    as (_ & Tb & _).
  fold A in Ta. fold c1 in Ta. fold B in Tb. unfold start in Ta, Tb.
  rewrite proj_fresh in Ta, Tb. cbn [set_total_lines total_lines] in Ta, Tb.
  unfold sums_to, carry_on. cbn [total_lines code_lines comment_lines
    docstring_lines blank_lines].
  rewrite Ta, Tb. unfold n, len. rewrite length_app.
  repeat split; lia.
Qed.

End Compose.

(** Outside a docstring the Python loop holds no delimiter. *)
Lemma python_body_closed (st st' : PythonLoop) (line : pystr) :
  (in_docstring st = false -> docstring_delimiter st = None) ->
  python_body st line = Ok st' ->
  in_docstring st' = false -> docstring_delimiter st' = None.
Proof.
  destruct st as [s ind dd]. unfold python_body.
  cbn [in_docstring docstring_delimiter py_stats]. intros Hinv.
  destruct (is_empty (strip line)).
  { intros E. inversion E. exact Hinv. }
  destruct ind.
  { destruct dd as [d|]; cbn [in_str bind]; [|discriminate].
    destruct (contains d (strip line)); intros E; inversion E; cbn;
      [reflexivity | discriminate]. }
  split_ifs; intros E; inversion E; cbn; auto; discriminate.
Qed.

Lemma python_loop_closed (lines : list pystr) (st st' : PythonLoop) :
  (in_docstring st = false -> docstring_delimiter st = None) ->
  for_each python_body lines st = Ok st' ->
  in_docstring st' = false -> docstring_delimiter st' = None.
Proof.
  revert st. induction lines as [|l lines IH]; intros st Hinv; simpl for_each.
  - intros E. inversion E. subst. exact Hinv.
  - destruct (python_body st l) as [st1|e] eqn:E1; cbn [bind]; [|discriminate].
    apply IH. exact (python_body_closed st st1 l Hinv E1).
Qed.

Lemma python_compose (l1 l2 : list pystr) (st1 : PythonLoop) :
  python_final l1 = Ok st1 ->
  in_docstring st1 = false ->
  exists s2 s12,
    classify_python_lines l2 = Ok s2
    /\ classify_python_lines (l1 ++ l2) = Ok s12
    /\ sums_to (py_stats st1) s2 s12.
Proof.
  unfold python_final, classify_python_lines. cbv zeta.
  set (start := fun n => mkPythonLoop
         (set_total_lines n (new_FileStats (str "") (str "Python"))) false None).
  change (for_each python_body l1 (start (len l1)) = Ok st1 ->
          in_docstring st1 = false ->
          exists s2 s12,
            (let! st := for_each python_body l2 (start (len l2)) in
             Ok (py_stats st)) = Ok s2
            /\ (let! st := for_each python_body (l1 ++ l2)
                             (start (len (l1 ++ l2))) in
                Ok (py_stats st)) = Ok s12
            /\ sums_to (py_stats st1) s2 s12).
  intros E1 Hclosed.
  assert (K : forall n, delimiter_known (start n)) by (intros n H; discriminate H).
  pose proof (python_loop_closed l1 (start (len l1)) st1 (fun _ => eq_refl)
                E1 Hclosed) as Hnone.
  destruct (python_loop_counts l1 _ (K (len l1))) as (st1' & E1' & _ & _ & T1 & _).
  rewrite E1 in E1'. inversion E1'. subst st1'. clear E1'.
  destruct (python_loop_counts l2 _ (K (len l2))) as (st2 & E2 & _ & _ & T2 & _).
  set (n := len (l1 ++ l2)).
  exists (py_stats st2), (carry_on (py_stats st1) n (py_stats st2)).
  rewrite E2. cbn [bind]. split; [reflexivity|].
  split.
  - rewrite for_each_app.
    change (start n) with (py_on_stats (set_total_lines n) (start (len l1))).
    rewrite python_loop_on_stats by apply set_total_lines_commutes.
    rewrite E1. cbn [bind].
    assert (Est : py_on_stats (set_total_lines n) st1
                  = py_on_stats (carry_on (py_stats st1) n) (start (len l2))).
    { destruct st1 as [c1 ind dd]. cbn in Hclosed, Hnone. subst ind dd.
      reflexivity. }
    rewrite Est, python_loop_on_stats by apply carry_on_commutes.
    rewrite E2. reflexivity.
  - cbn [py_stats start set_total_lines total_lines] in T1, T2.
    unfold sums_to, carry_on. cbn [total_lines code_lines comment_lines
      docstring_lines blank_lines].
    rewrite T1, T2. unfold n, len. rewrite length_app.
    repeat split; lia.
Qed.

Lemma brace_ends_fresh (st : BraceLoop) :
  normal st -> st = mkBraceLoop (stats st) false false.
Proof. destruct st as [s bc db]. intros [Hb Hd]. cbn in *. subst. reflexivity. Qed.

Lemma xml_ends_fresh (st : XmlLoop) :
  in_comment st = false -> st = mkXmlLoop (xml_stats st) false.
Proof. destruct st as [s c]. cbn. intros ->. reflexivity. Qed.

(** X3. When the classifier is back outside every block after the lines
    [l1] (Swift, Kotlin: Normal state; XML: no comment open; Python: no
    docstring open), classifying [l1 ++ l2] gives, counter by counter, the
    sum of classifying [l1] and classifying [l2]. For the Markdown, YAML and
    generic classifiers this holds for every [l1]. *)
Theorem classify_concatenation (l1 l2 : list pystr) (language : pystr) :
  (normal (swift_final l1) ->
   sums_to (classify_swift_lines l1) (classify_swift_lines l2)
     (classify_swift_lines (l1 ++ l2)))
  /\ (normal (kotlin_final l1) ->
      sums_to (classify_kotlin_lines l1) (classify_kotlin_lines l2)
        (classify_kotlin_lines (l1 ++ l2)))
  /\ (in_comment (xml_final l1) = false ->
      sums_to (classify_xml_lines l1) (classify_xml_lines l2)
        (classify_xml_lines (l1 ++ l2)))
  /\ (forall st1, python_final l1 = Ok st1 -> in_docstring st1 = false ->
      exists s2 s12,
        classify_python_lines l2 = Ok s2
        /\ classify_python_lines (l1 ++ l2) = Ok s12
        /\ sums_to (py_stats st1) s2 s12)
  /\ sums_to (classify_markdown_lines l1) (classify_markdown_lines l2)
       (classify_markdown_lines (l1 ++ l2))
  /\ sums_to (classify_yaml_lines l1) (classify_yaml_lines l2)
       (classify_yaml_lines (l1 ++ l2))
  /\ sums_to (classify_generic_lines l1 language)
       (classify_generic_lines l2 language)
       (classify_generic_lines (l1 ++ l2) language).
Proof.
  refine (conj _ (conj _ (conj _ (conj _ (conj _ (conj _ _)))))).
  - intros H.
    apply (fold_compose stats on_stats swift_body
             (fun s => mkBraceLoop s false false));
      [ reflexivity | reflexivity | apply swift_body_on_stats
      | apply swift_body_counts | reflexivity
      | apply (brace_ends_fresh _ H) ].
  - intros H.
    apply (fold_compose stats on_stats kotlin_body
             (fun s => mkBraceLoop s false false));
      [ reflexivity | reflexivity | apply kotlin_body_on_stats
      | apply kotlin_body_counts | reflexivity
      | apply (brace_ends_fresh _ H) ].
  - intros H.
    apply (fold_compose xml_stats xml_on_stats xml_body
             (fun s => mkXmlLoop s false));
      [ reflexivity | reflexivity | apply xml_body_on_stats
      | apply xml_body_counts | reflexivity
      | apply (xml_ends_fresh _ H) ].
  - apply python_compose.
  - apply (fold_compose (fun s => s) (fun f s => f s) markdown_body (fun s => s));
      [ reflexivity | reflexivity | apply markdown_body_on_stats
      | apply markdown_body_counts | reflexivity | reflexivity ].
  - apply (fold_compose (fun s => s) (fun f s => f s) yaml_body (fun s => s));
      [ reflexivity | reflexivity | apply yaml_body_on_stats
      | apply yaml_body_counts | reflexivity | reflexivity ].
  - apply (fold_compose (fun s => s) (fun f s => f s) generic_body (fun s => s));
      [ reflexivity | reflexivity | apply generic_body_on_stats
      | apply generic_body_counts | reflexivity | reflexivity ].
Qed.

(** A closed doc block followed by code, and an open one: the second input
    does not meet the condition, and the sum fails there. *)
Lemma classify_concatenation_witness :
  sums_to (classify_swift_lines (map str ["/**"; "*/"]%string))
    (classify_swift_lines [str "x"])
    (classify_swift_lines (map str ["/**"; "*/"]%string ++ [str "x"]))
  /\ ~ normal (swift_final [str "/**"])
  /\ code_lines (classify_swift_lines ([str "/**"] ++ [str "x"]))
     <> code_lines (classify_swift_lines [str "/**"])
        + code_lines (classify_swift_lines [str "x"]).
Proof.
  split.
  - exact (proj1 (classify_concatenation (map str ["/**"; "*/"]%string)
                    [str "x"] []) (conj eq_refl eq_refl)).
  - split; [intros [_ H]; discriminate H | discriminate].
Defined.

(** ** Blocks that are never closed *)

Lemma brace_open_block_step (body : BraceLoop -> pystr -> BraceLoop)
    (st : BraceLoop) (line : pystr) :
  body = swift_body \/ body = kotlin_body ->
  in_block_comment st || in_doc_block st = true ->
  contains (str "*/") (strip line) = false ->
  in_block_comment (body st line) = in_block_comment st
  /\ in_doc_block (body st line) = in_doc_block st
  /\ code_lines (stats (body st line)) = code_lines (stats st).
Proof.
  intros Hbody Hopen Hno. destruct st as [s bc db].
  cbn [in_block_comment in_doc_block stats] in *.
  destruct Hbody as [-> | ->]; unfold swift_body, kotlin_body;
    cbn [in_block_comment in_doc_block]; rewrite Hopen, Hno;
    destruct (is_empty (strip line)), db; repeat split; reflexivity.
Qed.

(** X4. Once a block comment or a doc block is open in the Swift or the
    Kotlin classifier, lines without the closer keep it open and none of
    them is counted as code; the same holds in the XML classifier for an open
    comment and lines without its closer. An opener that is never closed
    turns the rest of the file into comment or documentation. *)
Theorem open_block_swallows_lines (body : BraceLoop -> pystr -> BraceLoop)
    (st : BraceLoop) (xst : XmlLoop) (rest : list pystr) :
  body = swift_body \/ body = kotlin_body ->
  (in_block_comment st || in_doc_block st = true ->
   Forall (fun line => contains (str "*/") (strip line) = false) rest ->
   in_block_comment (fold_left body rest st) = in_block_comment st
   /\ in_doc_block (fold_left body rest st) = in_doc_block st
   /\ code_lines (stats (fold_left body rest st)) = code_lines (stats st))
  /\ (in_comment xst = true ->
      Forall (fun line => contains (str "-->") (strip line) = false) rest ->
      in_comment (fold_left xml_body rest xst) = true
      /\ code_lines (xml_stats (fold_left xml_body rest xst))
         = code_lines (xml_stats xst)).
Proof.
  intros Hbody. split.
  - intros Hopen Hall. revert st Hopen.
    induction Hall as [|l rest Hl _ IH]; intros st Hopen; simpl fold_left;
      [repeat split; reflexivity|].
    destruct (brace_open_block_step body st l Hbody Hopen Hl) as (Hb & Hd & Hc).
    destruct (IH (body st l)) as (Hb' & Hd' & Hc'); [rewrite Hb, Hd; exact Hopen|].
    rewrite Hb', Hd', Hc', Hb, Hd, Hc. repeat split; reflexivity.
  - intros Hopen Hall. revert xst Hopen.
    induction Hall as [|l rest Hl _ IH]; intros xst Hopen; simpl fold_left;
      [split; [exact Hopen | reflexivity]|].
    assert (Hstep : in_comment (xml_body xst l) = true
                    /\ code_lines (xml_stats (xml_body xst l))
                       = code_lines (xml_stats xst)).
    { destruct xst as [s c]. cbn in Hopen. subst c. unfold xml_body.
      cbn [in_comment xml_stats]. rewrite Hl.
      destruct (is_empty (strip l)); split; reflexivity. }
    destruct Hstep as [Hc Hk]. destruct (IH _ Hc) as [Hc' Hk'].
    rewrite Hc', Hk', Hk. split; reflexivity.
Qed.

(** A block comment opened on the first line and never closed: the two
    statements after it are counted as comments. *)
Lemma open_block_swallows_lines_witness :
  code_lines
    (stats (fold_left swift_body (map str ["let x = 1"; "foo()"]%string)
              (swift_body (mkBraceLoop (new_FileStats [] []) false false)
                 (str "/* todo"))))
  = 0
  /\ classify_swift_lines (map str ["/* todo"; "let x = 1"; "foo()"]%string)
     = mkFileStats [] 3 0 3 0 0 (str "Swift").
Proof.
  split; [|reflexivity].
  exact (proj2 (proj2 (proj1 (open_block_swallows_lines swift_body
           (swift_body (mkBraceLoop (new_FileStats [] []) false false)
              (str "/* todo"))
           (mkXmlLoop (new_FileStats [] []) false)
           (map str ["let x = 1"; "foo()"]%string)
           (or_introl eq_refl)) eq_refl
           ltac:(repeat constructor)))).
Defined.

(** ** Shortest and longest file *)

Lemma fold_min_spec (xs : list Z) (a : Z) :
  (fold_left Z.min xs a = a \/ In (fold_left Z.min xs a) xs)
  /\ fold_left Z.min xs a <= a
  /\ (forall x, In x xs -> fold_left Z.min xs a <= x).
Proof.
  revert a. induction xs as [|y xs IH]; intros a; simpl.
  - split; [left; reflexivity|]. split; [lia | intros x []].
  - destruct (IH (Z.min a y)) as (Hin & Hle & Hall).
    split; [|split].
    + destruct Hin as [E|Hin]; [|right; right; exact Hin].
      rewrite E. destruct (Z.min_spec a y) as [[_ ->]|[_ ->]];
        [left | right; left]; reflexivity.
    + lia.
    + intros x [<-|Hx]; [lia | apply Hall, Hx].
Qed.

Lemma fold_max_spec (xs : list Z) (a : Z) :
  (fold_left Z.max xs a = a \/ In (fold_left Z.max xs a) xs)
  /\ a <= fold_left Z.max xs a
  /\ (forall x, In x xs -> x <= fold_left Z.max xs a).
Proof.
  revert a. induction xs as [|y xs IH]; intros a; simpl.
  - split; [left; reflexivity|]. split; [lia | intros x []].
  - destruct (IH (Z.max a y)) as (Hin & Hle & Hall).
    split; [|split].
    + destruct Hin as [E|Hin]; [|right; right; exact Hin].
      rewrite E. destruct (Z.max_spec a y) as [[_ ->]|[_ ->]];
        [right; left | left]; reflexivity.
    + lia.
    + intros x [<-|Hx]; [lia | apply Hall, Hx].
Qed.

Lemma getitem_In (xs : list Z) (i x : Z) : getitem xs i = Ok x -> In x xs.
Proof.
  unfold getitem. cbv zeta.
  destruct ((_ <? 0) || (len xs <=? _)); [discriminate|].
  destruct (nth_error xs _) as [y|] eqn:E; [|discriminate].
  intros H. inversion H. subst. eapply nth_error_In, E.
Qed.

(** X5. On a platform without files the shortest and the longest file
    length are 0. Otherwise both are the length of one of its files, every
    file's length lies between them, and so does every percentile the
    platform returns, whatever the argument. *)
Theorem min_max_file_length (ps : PlatformStats) :
  (files ps = [] -> min_file_length ps = 0 /\ max_file_length ps = 0)
  /\ (files ps <> [] ->
      (exists f, In f (files ps) /\ total_lines f = min_file_length ps)
      /\ (exists f, In f (files ps) /\ total_lines f = max_file_length ps)
      /\ (forall f, In f (files ps) ->
            min_file_length ps <= total_lines f <= max_file_length ps)
      /\ (forall p x, PlatformStats.percentile ps p = Ok x ->
            min_file_length ps <= x <= max_file_length ps)).
Proof.
  unfold min_file_length, max_file_length. split.
  - intros ->. split; reflexivity.
  - intros Hne. destruct (files ps) as [|f0 fs] eqn:Efs; [congruence|].
    cbn [map min_default max_default].
    destruct (fold_min_spec (map total_lines fs) (total_lines f0))
      as (Hmin_in & Hmin_le & Hmin_all).
    destruct (fold_max_spec (map total_lines fs) (total_lines f0))
      as (Hmax_in & Hmax_le & Hmax_all).
    assert (Hbounds : forall f, In f (f0 :: fs) ->
              fold_left Z.min (map total_lines fs) (total_lines f0)
              <= total_lines f
              <= fold_left Z.max (map total_lines fs) (total_lines f0)).
    { intros f [<-|Hf]; [lia|].
      split; [apply Hmin_all | apply Hmax_all]; apply in_map, Hf. }
    split; [|split; [|split; [exact Hbounds|]]].
    + destruct Hmin_in as [E|Hin].
      * exists f0. split; [left; reflexivity | symmetry; exact E].
      * apply in_map_iff in Hin as (f & Ef & Hf).
        exists f. split; [right; exact Hf | exact Ef].
    + destruct Hmax_in as [E|Hin].
      * exists f0. split; [left; reflexivity | symmetry; exact E].
      * apply in_map_iff in Hin as (f & Ef & Hf).
        exists f. split; [right; exact Hf | exact Ef].
    + intros p x. unfold PlatformStats.percentile, PlatformStats.file_lengths.
      rewrite Efs.
      destruct (is_nil (sorted (map total_lines (f0 :: fs)))) eqn:Enil.
      { destruct (sorted (map total_lines (f0 :: fs))) eqn:Es; [|discriminate].
        pose proof (len_sorted (map total_lines (f0 :: fs))) as Hl.
        rewrite Es in Hl. unfold len in Hl. simpl in Hl. lia. }
      destruct (raw_index _ p) as [i|e]; cbn [bind]; [|discriminate].
      intros Hx. apply getitem_In in Hx.
      apply (Permutation_in _ (sorted_perm _)) in Hx.
      apply in_map_iff in Hx as (f & <- & Hf). apply Hbounds, Hf.
Qed.

Lemma min_max_file_length_witness :
  min_file_length
    (mkPlatformStats [] [mkFileStats [] 7 5 1 0 1 []; mkFileStats [] 3 3 0 0 0 []])
  <= 7.
Proof.
  exact (proj1 (proj1 (proj2 (proj2 (proj2 (min_max_file_length
           (mkPlatformStats []
              [mkFileStats [] 7 5 1 0 1 []; mkFileStats [] 3 3 0 0 0 []]))
           ltac:(discriminate)))) (mkFileStats [] 7 5 1 0 1 [])
           (or_introl eq_refl))).
Defined.

(** ** The size histogram *)

Lemma count_if_cons (cond : FileStats -> bool) (f : FileStats)
    (fs : list FileStats) :
  count_if cond (f :: fs) = (if cond f then 1 else 0) + count_if cond fs.
Proof.
  unfold count_if. simpl List.filter. destruct (cond f); [|lia].
  cbn [map]. apply sum_cons.
Qed.

(** X6. The seven buckets of [SIZE_BUCKETS] cover every file exactly once:
    for every list of files the bucket counts add up to the number of files.
    A file without any line, which the label [1-50 lines] leaves out, is
    counted in the first bucket. *)
Theorem bucket_counts_cover (files : list FileStats) :
  sum (bucket_counts files) = len files
  /\ (forall f, total_lines f <= 0 ->
        _bucket_count [f] 0 (Finite 50) = 1).
Proof.
  split.
  - unfold bucket_counts, SIZE_BUCKETS, _bucket_count. cbn [map fst snd Z.eqb].
    unfold len. induction files as [|f fs IH].
    + reflexivity.
    + rewrite !sum_cons in IH |- *. rewrite !count_if_cons.
      unfold sum in IH |- *. cbn [fold_left] in IH |- *.
      cbn [le_bound].
      simpl length. rewrite Nat2Z.inj_succ, <- IH. cbn [le_bound].
      repeat match goal with
        | |- context [?a <=? ?b] =>
            destruct (Z.leb_spec a b); try (exfalso; lia)
        | |- context [?a <? ?b] =>
            destruct (Z.ltb_spec a b); try (exfalso; lia)
        end;
        cbn [andb]; lia.
  - intros f Hf. unfold _bucket_count. cbn [Z.eqb]. rewrite count_if_cons.
    cbn [le_bound]. destruct (Z.leb_spec (total_lines f) 50); [reflexivity | lia].
Qed.

Lemma bucket_counts_cover_witness :
  _bucket_count [new_FileStats [] []] 0 (Finite 50) = 1.
Proof.
  exact (proj2 (bucket_counts_cover []) (new_FileStats [] []) ltac:(cbn; lia)).
Defined.

(** ** Collecting files *)

Lemma insert_by_Permutation {A : Type} (key : A -> Z) (x : A) (l : list A) :
  Permutation (insert_by key x l) (x :: l).
Proof.
  induction l as [|y l IH]; simpl; [reflexivity|].
  destruct (key x <? key y); [reflexivity|].
  rewrite IH. apply perm_swap.
Qed.

Lemma insert_by_sorted {A : Type} (key : A -> Z) (x : A) (l : list A) :
  StronglySorted (fun a b => key a <= key b) l ->
  StronglySorted (fun a b => key a <= key b) (insert_by key x l).
Proof.
  induction 1 as [|y l Hs IH Hy]; simpl.
  - constructor; constructor.
  - destruct (Z.ltb_spec (key x) (key y)) as [Hlt|Hge].
    + constructor; [constructor; assumption|].
      constructor; [lia|].
      eapply Forall_impl; [exact Hy|]. cbn. intros; lia.
    + constructor; [exact IH|].
      apply (Permutation_Forall (symmetry (insert_by_Permutation key x l))).
      constructor; assumption.
Qed.

Lemma sort_by_acc {A : Type} (key : A -> Z) (l acc : list A) :
  StronglySorted (fun a b => key a <= key b) acc ->
  Permutation (fold_left (fun acc x => insert_by key x acc) l acc) (acc ++ l)
  /\ StronglySorted (fun a b => key a <= key b)
       (fold_left (fun acc x => insert_by key x acc) l acc).
Proof.
  revert acc. induction l as [|x l IH]; intros acc Hacc; simpl.
  - rewrite app_nil_r. split; [reflexivity | exact Hacc].
  - destruct (IH (insert_by key x acc) (insert_by_sorted key x acc Hacc))
      as [Hp Hs].
    split; [|exact Hs].
    rewrite Hp, insert_by_Permutation.
    change (acc ++ x :: l) with (acc ++ [x] ++ l).
    rewrite (Permutation_middle acc l x). reflexivity.
Qed.

Lemma sort_by_spec {A : Type} (key : A -> Z) (l : list A) :
  Permutation (sort_by key l) l
  /\ StronglySorted (fun a b => key a <= key b) (sort_by key l).
Proof. apply (sort_by_acc key l []). constructor. Qed.

Lemma StronglySorted_weaken {A : Type} (R R' : A -> A -> Prop) (l : list A) :
  (forall a b, R a b -> R' a b) ->
  StronglySorted R l -> StronglySorted R' l.
Proof.
  intros H. induction 1 as [|x l _ IH Hx]; constructor; [exact IH|].
  eapply Forall_impl; [exact Hx|]. intros b. apply H.
Qed.

Section CollectFacts.

Variable suffix_lower : pystr -> pystr.

Lemma collect_inner (exts : list pystr) (fs result : list FileStats) :
  fold_left (collect_body suffix_lower exts) fs result
  = result
    ++ List.filter (fun f => bool_decide (suffix_lower (path f) ∈ exts)) fs.
Proof.
  revert result. induction fs as [|f fs IH]; intros result; simpl.
  - symmetry. apply app_nil_r.
  - rewrite IH. unfold collect_body.
    destruct (bool_decide (suffix_lower (path f) ∈ exts));
      [rewrite <- app_assoc|]; reflexivity.
Qed.

Lemma collect_outer (exts : list pystr) (platforms : list PlatformStats)
    (result : list FileStats) :
  fold_left (fun result ps =>
               fold_left (collect_body suffix_lower exts) (files ps) result)
    platforms result
  = result
    ++ List.filter (fun f => bool_decide (suffix_lower (path f) ∈ exts))
         (concat (map files platforms)).
Proof.
  revert result. induction platforms as [|ps platforms IH]; intros result;
    cbn [fold_left map concat].
  - symmetry. apply app_nil_r.
  - rewrite IH, collect_inner, List.filter_app, app_assoc. reflexivity.
Qed.

(** X7. [_collect_src_files] returns, in the order of the platforms and of
    their files, exactly the files whose extension is a source extension:
    the concatenation of [_src_files_for_platform] over the platforms. No
    file it returns is a documentation file of [_collect_doc_files]. *)
Theorem collect_src_files_spec (platforms : list PlatformStats) :
  _collect_src_files suffix_lower platforms
  = List.filter
      (fun f => bool_decide (suffix_lower (path f) ∈ SOURCE_EXTENSIONS))
      (concat (map files platforms))
  /\ _collect_src_files suffix_lower platforms
     = concat (map (_src_files_for_platform suffix_lower) platforms)
  /\ (forall f, In f (_collect_src_files suffix_lower platforms) ->
        ~ In f (_collect_doc_files suffix_lower platforms)).
Proof.
  assert (E : _collect_src_files suffix_lower platforms
              = List.filter
                  (fun f => bool_decide (suffix_lower (path f) ∈ SOURCE_EXTENSIONS))
                  (concat (map files platforms))).
  { unfold _collect_src_files. rewrite collect_outer. reflexivity. }
  split; [exact E|]. split.
  - rewrite E. unfold _src_files_for_platform.
    induction platforms as [|ps platforms IH]; [reflexivity|].
    cbn [map concat]. rewrite List.filter_app. f_equal.
    apply IH. unfold _collect_src_files. rewrite collect_outer. reflexivity.
  - intros f Hsrc Hdoc. rewrite E in Hsrc.
    apply List.filter_In in Hsrc as [_ Hsrc].
    unfold _collect_doc_files in Hdoc. cbv zeta in Hdoc.
    apply (Permutation_in _ (proj1 (sort_by_spec _ _))) in Hdoc.
    rewrite collect_outer in Hdoc. cbn [app] in Hdoc.
    apply List.filter_In in Hdoc as [_ Hdoc].
    apply bool_decide_eq_true in Hdoc.
    unfold DOC_EXTENSIONS in Hdoc. apply list_elem_of_singleton in Hdoc.
    rewrite Hdoc in Hsrc. vm_compute in Hsrc. discriminate Hsrc.
Qed.

(** X8. [_collect_doc_files] returns the files with the extension [.md],
    each as often as the platforms hold it, ordered by falling length. *)
Theorem collect_doc_files_sorted (platforms : list PlatformStats) :
  Permutation (_collect_doc_files suffix_lower platforms)
    (List.filter
       (fun f => bool_decide (suffix_lower (path f) ∈ DOC_EXTENSIONS))
       (concat (map files platforms)))
  /\ StronglySorted (fun a b => total_lines b <= total_lines a)
       (_collect_doc_files suffix_lower platforms).
Proof.
  unfold _collect_doc_files. cbv zeta. rewrite collect_outer. cbn [app].
  destruct (sort_by_spec (fun f => - total_lines f)
              (List.filter
                 (fun f => bool_decide (suffix_lower (path f) ∈ DOC_EXTENSIONS))
                 (concat (map files platforms)))) as [Hp Hs].
  split; [exact Hp|].
  eapply StronglySorted_weaken; [|exact Hs]. cbn. intros a b Hab; lia.
Qed.

(** X9. For [top_n >= 0] the list of longest files holds [top_n] source
    files, or all of them when there are fewer; it is ordered by falling
    length and no file left out is longer than a file listed. For a negative
    [top_n] it is all the source files but the [-top_n] shortest. *)
Theorem longest_files_spec (platforms : list PlatformStats) (top_n : Z) :
  let src := _collect_src_files suffix_lower platforms in
  let shown := longest_files suffix_lower platforms top_n in
  len shown
  = (if top_n <? 0 then Z.max 0 (len src + top_n) else Z.min top_n (len src))
  /\ StronglySorted (fun a b => total_lines b <= total_lines a) shown
  /\ exists rest,
       Permutation (shown ++ rest) src
       /\ forall a b, In a shown -> In b rest -> total_lines b <= total_lines a.
Proof.
  intros src shown. unfold shown, longest_files. fold src.
  destruct (sort_by_spec (fun f => - total_lines f) src) as [Hp Hs].
  set (L := sort_by (fun f => - total_lines f) src) in *.
  assert (Hs' : StronglySorted (fun a b => total_lines b <= total_lines a) L).
  { eapply StronglySorted_weaken; [|exact Hs]. cbn. intros a b Hab; lia. }
  assert (HL : len L = len src)
    by (unfold len; f_equal; apply Permutation_length, Hp).
  unfold slice_to.
  set (k := if top_n <? 0 then Z.to_nat (len L + top_n) else Z.to_nat top_n).
  assert (Ek : (if top_n <? 0 then take (Z.to_nat (len L + top_n)) L
                else take (Z.to_nat top_n) L) = take k L)
    by (unfold k; destruct (top_n <? 0); reflexivity).
  rewrite Ek.
  assert (Hsplit : take k L ++ drop k L = L) by apply take_drop.
  split; [|split].
  - unfold len at 1. rewrite length_take. unfold k.
    destruct (Z.ltb_spec top_n 0); unfold len in *; lia.
  - rewrite <- Hsplit in Hs'. eapply StronglySorted_app_1_l, Hs'.
  - exists (drop k L). split; [rewrite Hsplit; exact Hp|].
    intros a b Ha Hb. rewrite <- Hsplit in Hs'.
    apply (StronglySorted_app_1_elem_of _ _ _ a b Hs');
      apply list_elem_of_In; assumption.
Qed.

End CollectFacts.

(** ** The rows of [_lang_stats] *)

Lemma totals_of_cons (f : FileStats) (fs : list FileStats) :
  totals_of (f :: fs) = totals_add (file_row f) (totals_of fs).
Proof.
  unfold totals_of. change (f :: fs) with ([f] ++ fs).
  rewrite platform_totals_app. reflexivity.
Qed.

Lemma totals_of_balanced (fs : list FileStats) :
  Forall (fun f => counted f = total_lines f) fs -> balanced (totals_of fs).
Proof.
  induction 1 as [|f fs Hf _ IH]; [reflexivity|].
  rewrite totals_of_cons. unfold balanced, totals_add, file_row, counted in *.
  cbn [t_total t_code t_comments t_docs t_blank]. lia.
Qed.

Lemma totals_of_files (fs : list FileStats) : t_files (totals_of fs) = len fs.
Proof. reflexivity. Qed.

Lemma collect_src_files_aux (suffix_lower : pystr -> pystr)
    (platforms : list PlatformStats) (f : FileStats) :
  In f (_collect_src_files suffix_lower platforms) ->
  exists ps, In ps platforms /\ In f (files ps).
Proof.
  unfold _collect_src_files. rewrite collect_outer. cbn [app].
  intros H. apply List.filter_In in H as [H _].
  apply in_concat in H as (fs & Hfs & Hf).
  apply in_map_iff in Hfs as (ps & <- & Hps). exists ps. split; assumption.
Qed.

Section LangRows.

Variable suffix_lower : pystr -> pystr.

Lemma fold_lang_stats_lookup (l : list FileStats) (m : gmap pystr Totals)
    (lang : pystr) :
  fold_left (lang_stats_body suffix_lower) l m !! lang
  = let fs :=
      List.filter (fun f => bool_decide (language f = lang))
        (List.filter
           (fun f => bool_decide (suffix_lower (path f) ∈ SOURCE_EXTENSIONS)) l) in
    if is_nil fs then m !! lang
    else Some (totals_add (default totals_zero (m !! lang)) (totals_of fs)).
Proof.
  cbv zeta. revert m. induction l as [|f l IH]; intros m; [reflexivity|].
  cbn [fold_left List.filter]. rewrite IH, lang_stats_body_row.
  destruct (bool_decide (suffix_lower (path f) ∈ SOURCE_EXTENSIONS));
    cbn [negb]; [|reflexivity].
  cbn [List.filter].
  destruct (bool_decide_reflect (language f = lang)) as [E|N].
  - subst lang. rewrite lookup_insert_eq. cbn [default from_option id is_nil].
    set (fs := List.filter _ (List.filter _ l)).
    rewrite totals_of_cons, totals_add_assoc.
    destruct fs as [|g fs]; [|reflexivity].
    cbn [is_nil]. f_equal.
    change (totals_of []) with totals_zero.
    rewrite <- totals_add_assoc, (totals_add_comm (file_row f)),
      totals_add_zero_l. reflexivity.
  - rewrite lookup_insert_ne by exact N. reflexivity.
Qed.

Lemma lang_stats_lookup (platforms : list PlatformStats) (lang : pystr) :
  _lang_stats suffix_lower platforms !! lang
  = let fs :=
      List.filter (fun f => bool_decide (language f = lang))
        (_collect_src_files suffix_lower platforms) in
    if is_nil fs then None else Some (totals_of fs).
Proof.
  unfold _lang_stats, _collect_src_files.
  rewrite lang_stats_flat, fold_lang_stats_lookup, collect_outer.
  cbv zeta. cbn [app]. rewrite lookup_empty. cbn [default from_option].
  destruct (List.filter _ _); [reflexivity|].
  cbn [is_nil]. rewrite totals_add_zero_l. reflexivity.
Qed.

(** X10. [_lang_stats] has a row for exactly the languages of the source
    files, and the row of a language holds the number of source files with
    that language tag and the sums of their five counters. *)
Theorem lang_stats_rows (platforms : list PlatformStats) (lang : pystr) :
  let fs :=
    List.filter (fun f => bool_decide (language f = lang))
      (_collect_src_files suffix_lower platforms) in
  _lang_stats suffix_lower platforms !! lang
  = (if is_nil fs then None else Some (totals_of fs))
  /\ t_files (totals_of fs) = len fs
  /\ t_total (totals_of fs) = sum (map total_lines fs)
  /\ t_code (totals_of fs) = sum (map code_lines fs)
  /\ t_comments (totals_of fs) = sum (map comment_lines fs)
  /\ t_docs (totals_of fs) = sum (map docstring_lines fs)
  /\ t_blank (totals_of fs) = sum (map blank_lines fs).
Proof.
  intros fs. split; [apply lang_stats_lookup|]. repeat split; reflexivity.
Qed.

(** X11. When the four counters of every file add up to its total, so do
    the aggregated counters of every platform and of every row of
    [_lang_stats]; and every row counts at least one file. *)
Theorem aggregates_balanced (platforms : list PlatformStats) :
  (forall ps f, In ps platforms -> In f (files ps) ->
     counted f = total_lines f) ->
  (forall ps, In ps platforms -> balanced (platform_totals ps))
  /\ (forall lang row, _lang_stats suffix_lower platforms !! lang = Some row ->
        balanced row /\ 1 <= t_files row).
Proof.
  intros Hfiles. split.
  - intros [n fs] Hps.
    change (platform_totals (mkPlatformStats n fs))
      with (platform_totals (mkPlatformStats [] fs)).
    apply totals_of_balanced, List.Forall_forall. intros f Hf.
    apply (Hfiles _ f Hps Hf).
  - intros lang row. rewrite lang_stats_lookup. cbv zeta.
    set (fs := List.filter _ _).
    assert (Hsub : forall f, In f fs -> counted f = total_lines f).
    { intros f Hf. apply List.filter_In in Hf as [Hf _].
      destruct (collect_src_files_aux suffix_lower platforms f Hf) as (ps & Hps & Hin).
      apply (Hfiles ps f Hps Hin). }
    destruct fs as [|g fs']; cbn [is_nil]; [discriminate|].
    intros E. inversion E. subst row. split.
    + apply totals_of_balanced, List.Forall_forall, Hsub.
    + rewrite totals_of_files. unfold len. simpl length. lia.
Qed.

End LangRows.

(** ** [detect_platform] *)

Lemma detect_platform_in_names (parts : list pystr) :
  In (detect_platform_of parts) PLATFORM_NAMES.
Proof.
  unfold detect_platform_of, PLATFORM_NAMES.
  destruct parts as [|a r]; [cbn; tauto|].
  repeat match goal with
    | |- context [if ?c then _ else _] => destruct c
    end; cbn [map In]; tauto.
Qed.

(** X12. [detect_platform] returns one of thirteen names. The first
    component of the relative path decides, except below
    [OpenHikerAndroid], where the second component chooses among three names;
    a path with an unknown first component, or without components, belongs
    to [Root]. *)
Theorem detect_platform_names (first second : pystr) (rest rest' : list pystr) :
  (forall parts, In (detect_platform_of parts) PLATFORM_NAMES)
  /\ detect_platform_of (first :: second :: rest)
     = detect_platform_of (first :: second :: rest')
  /\ (first <> str "OpenHikerAndroid" ->
      detect_platform_of (first :: rest) = detect_platform_of [first])
  /\ detect_platform_of [] = str "Root"
  /\ (~ In first (map str [ "OpenHiker iOS"; "OpenHiker watchOS";
                            "OpenHiker macOS"; "OpenHikerAndroid"; "Shared";
                            "OpenHikerTests"; "docs"; ".github";
                            "route-repo-template"; "scripts" ]%string) ->
      detect_platform_of (first :: rest) = str "Root").
Proof.
  split; [|split; [|split; [|split]]].
  - exact detect_platform_in_names.
  - unfold detect_platform_of, len. cbn [nth_error length].
    assert (E : forall r : list pystr,
               (1 <? Z.of_nat (S (S (length r)))) = true)
      by (intros r; apply Z.ltb_lt; lia).
    rewrite !E. reflexivity.
  - intros Hne. unfold detect_platform_of.
    rewrite (bool_decide_eq_false_2 _ Hne). reflexivity.
  - reflexivity.
  - intros Hnot. unfold detect_platform_of. cbn [map In] in Hnot.
    repeat match goal with
      | |- context [bool_decide (first = ?s)] =>
          rewrite (bool_decide_eq_false_2 (first = s))
            by (intros E; symmetry in E; tauto)
      end.
    reflexivity.
Qed.

Lemma detect_platform_names_witness :
  detect_platform_of (map str ["tools"; "x.py"]%string) = str "Root".
Proof.
  exact (proj2 (proj2 (proj2 (proj2 (detect_platform_names (str "tools") []
           [str "x.py"] []))))
           ltac:(vm_compute; intros H;
                 repeat (destruct H as [H|H]; [discriminate H|]); exact H)).
Defined.

(** ** [analyze_file] *)










Lemma partition_of_set_path (lines : list pystr) (p : pystr) (s : FileStats) :
  partition_of lines s -> partition_of lines (set_path p s).
Proof. intros H. exact H. Qed.



(** ** [walk_project] *)






Section WalkFacts.

Variable suffix_lower : pystr -> pystr.
Variable read_lines : pystr -> option (list pystr).
Variable upper_name : pystr -> pystr.
Variable join : pystr -> pystr -> pystr.
Variable relpath : pystr -> pystr -> pystr.
Variable parts : pystr -> list pystr.
Variable os_walk :
  (list pystr -> list pystr) -> pystr -> list (pystr * list pystr * list pystr).









End WalkFacts.

(** ** Pruning *)

Lemma skip_dirs_not_github (d : pystr) :
  In d SKIP_DIRS -> bool_decide (d = str ".github") = false.
Proof.
  unfold SKIP_DIRS. cbn [map In]. intros H.
  repeat (destruct H as [<-|H]; [reflexivity|]). destruct H.
Qed.

(** X15. Pruning keeps [.github] and drops every other directory whose
    name starts with a dot, and every directory named in [SKIP_DIRS]; a
    directory that is neither hidden nor named there stays. Pruning a pruned
    list changes nothing. *)
Theorem prune_spec (dirnames : list pystr) (d : pystr) :
  (In (str ".github") dirnames -> In (str ".github") (prune dirnames))
  /\ (startswith (str ".") d = true -> d <> str ".github" ->
      ~ In d (prune dirnames))
  /\ (In d SKIP_DIRS -> ~ In d (prune dirnames))
  /\ (In d dirnames -> startswith (str ".") d = false -> ~ In d SKIP_DIRS ->
      In d (prune dirnames))
  /\ prune (prune dirnames) = prune dirnames.
Proof.
  unfold prune. repeat apply conj.
  - intros H. apply List.filter_In. split; [exact H | reflexivity].
  - intros Hdot Hne H. apply List.filter_In in H as [_ H]. unfold keep_dir in H.
    rewrite Hdot, (bool_decide_eq_false_2 _ Hne), andb_false_r in H.
    discriminate H.
  - intros Hskip H. apply List.filter_In in H as [_ H]. unfold keep_dir in H.
    rewrite (skip_dirs_not_github d Hskip), orb_false_r in H.
    rewrite (bool_decide_eq_true_2 (d ∈ SKIP_DIRS)) in H
      by (apply list_elem_of_In; exact Hskip).
    discriminate H.
  - intros Hin Hdot Hskip. apply List.filter_In. split; [exact Hin|].
    unfold keep_dir. rewrite Hdot.
    rewrite (bool_decide_eq_false_2 (d ∈ SKIP_DIRS))
      by (intros H; apply Hskip, list_elem_of_In, H).
    reflexivity.
  - induction dirnames as [|x l IH]; [reflexivity|]. cbn [List.filter].
    destruct (keep_dir x) eqn:E; [|exact IH].
    cbn [List.filter]. rewrite E, IH. reflexivity.
Qed.

Lemma prune_spec_witness :
  prune (map str [".git"; ".github"; "build"; "Shared"; ".vscode"]%string)
  = map str [".github"; "Shared"]%string
  /\ ~ In (str ".vscode")
         (prune (map str [".git"; ".github"; "build"; "Shared"; ".vscode"]%string)).
Proof.
  split; [reflexivity|].
  exact (proj1 (proj2 (prune_spec
           (map str [".git"; ".github"; "build"; "Shared"; ".vscode"]%string)
           (str ".vscode"))) eq_refl ltac:(discriminate)).
Defined.

(** ** The other ways through [main] *)





(** ** Witnesses for the properties above *)

Lemma collect_src_files_spec_witness :
  ~ In (mkFileStats (str "a.py") 1 1 0 0 0 (str "Python"))
      (_collect_doc_files (fun p => drop 1 p)
         [mkPlatformStats (str "Scripts")
            [mkFileStats (str "a.py") 1 1 0 0 0 (str "Python");
             mkFileStats (str "b.md") 2 0 0 2 0 (str "Markdown")]]).
Proof.
  exact (proj2 (proj2 (collect_src_files_spec (fun p => drop 1 p)
           [mkPlatformStats (str "Scripts")
              [mkFileStats (str "a.py") 1 1 0 0 0 (str "Python");
               mkFileStats (str "b.md") 2 0 0 2 0 (str "Markdown")]]))
           (mkFileStats (str "a.py") 1 1 0 0 0 (str "Python"))
           (or_introl eq_refl)).
Defined.

Lemma aggregates_balanced_witness :
  balanced
    (platform_totals
       (mkPlatformStats (str "Scripts")
          [mkFileStats (str "a.py") 3 1 1 0 1 (str "Python")])).
Proof.
  exact (proj1 (aggregates_balanced (fun p => drop 1 p)
           [mkPlatformStats (str "Scripts")
              [mkFileStats (str "a.py") 3 1 1 0 1 (str "Python")]]
           ltac:(intros ps f [<-|[]] [<-|[]]; reflexivity))
           _ (or_introl eq_refl)).
Defined.

(** ** The platform summary *)

Lemma insert_item_Permutation {V : Type} (kv : pystr * V)
    (l : list (pystr * V)) :
  Permutation (insert_item kv l) (kv :: l).
Proof.
  induction l as [|kv' l IH]; simpl; [reflexivity|].
  destruct (str_ltb (fst kv) (fst kv')); [reflexivity|].
  rewrite IH. apply perm_swap.
Qed.

Lemma sorted_items_Permutation {V : Type} (d : list (pystr * V)) :
  Permutation (sorted_items d) d.
Proof.
  unfold sorted_items.
  assert (H : forall acc,
             Permutation (fold_left (fun acc kv => insert_item kv acc) d acc)
               (acc ++ d)).
  { induction d as [|kv d IH]; intros acc; simpl.
    - rewrite app_nil_r. reflexivity.
    - rewrite IH, insert_item_Permutation.
      change (acc ++ kv :: d) with (acc ++ [kv] ++ d).
      rewrite (Permutation_middle acc d kv). reflexivity. }
  apply (H []).
Qed.

Lemma totals_add_zero_r (a : Totals) : totals_add a totals_zero = a.
Proof. destruct a. unfold totals_add. cbn. f_equal; lia. Qed.

Lemma totals_of_app (fs gs : list FileStats) :
  totals_of (fs ++ gs) = totals_add (totals_of fs) (totals_of gs).
Proof. apply platform_totals_app. Qed.

Section SummaryFacts.

Variable suffix_lower : pystr -> pystr.

Lemma summary_body_adds (grand : Totals) (item : pystr * PlatformStats) :
  summary_body suffix_lower grand item
  = totals_add grand
      (totals_of (if has_content (snd item)
                  then _src_files_for_platform suffix_lower (snd item)
                  else [])).
Proof.
  unfold summary_body. cbv zeta.
  destruct (has_content (snd item)); cbn [negb];
    [|symmetry; apply totals_add_zero_r].
  destruct (_src_files_for_platform suffix_lower (snd item)) as [|f fs];
    [symmetry; apply totals_add_zero_r | reflexivity].
Qed.

Lemma fold_summary (items : list (pystr * PlatformStats)) (grand : Totals) :
  fold_left (summary_body suffix_lower) items grand
  = totals_add grand
      (totals_of
         (flat_map (fun item => if has_content (snd item)
                                then _src_files_for_platform suffix_lower (snd item)
                                else []) items)).
Proof.
  revert grand. induction items as [|item items IH]; intros grand;
    cbn [fold_left flat_map].
  - symmetry. apply totals_add_zero_r.
  - rewrite IH, summary_body_adds, totals_of_app, totals_add_assoc. reflexivity.
Qed.

(** X18. The [TOTAL] row of the platform summary adds up the source files
    of the platforms that have at least one line of code, comment or
    documentation in any of their files. When every platform with source
    files is such a platform, the row holds the totals of all the source
    files [_collect_src_files] returns; a platform whose files are all blank
    is left out of the row. *)
Theorem summary_grand_totals_spec (platforms : list (pystr * PlatformStats)) :
  summary_grand_totals suffix_lower platforms
  = totals_of
      (flat_map (fun item => if has_content (snd item)
                             then _src_files_for_platform suffix_lower (snd item)
                             else []) platforms)
  /\ ((forall item, In item platforms ->
         _src_files_for_platform suffix_lower (snd item) <> [] ->
         has_content (snd item) = true) ->
      summary_grand_totals suffix_lower platforms
      = totals_of (_collect_src_files suffix_lower (map snd platforms))).
Proof.
  assert (E : summary_grand_totals suffix_lower platforms
              = totals_of
                  (flat_map (fun item => if has_content (snd item)
                                         then _src_files_for_platform
                                                suffix_lower (snd item)
                                         else []) platforms)).
  { unfold summary_grand_totals. rewrite fold_summary, totals_add_zero_l.
    apply platform_totals_Permutation, Permutation_flat_map,
      sorted_items_Permutation. }
  split; [exact E|].
  intros Hall. rewrite E. f_equal.
  unfold _collect_src_files. rewrite collect_outer. cbn [app].
  clear E. induction platforms as [|item platforms IH]; [reflexivity|].
  cbn [flat_map map concat]. rewrite List.filter_app.
  rewrite IH by (intros i Hi; apply Hall; right; exact Hi).
  f_equal. unfold _src_files_for_platform in *.
  destruct (has_content (snd item)) eqn:Ec; [reflexivity|].
  destruct (List.filter _ (files (snd item))) as [|f fs] eqn:Ef; [reflexivity|].
  assert (Hc : has_content (snd item) = true).
  { apply Hall; [left; reflexivity|]. rewrite Ef. discriminate. }
  congruence.
Qed.

End SummaryFacts.

(** A platform with one blank Python file: it is a source file, and the
    summary leaves it out. *)
Lemma summary_grand_totals_spec_witness :
  let blank_py := mkFileStats (str "a.py") 2 0 0 0 2 (str "Python") in
  let code_py := mkFileStats (str "b.py") 5 4 0 0 1 (str "Python") in
  summary_grand_totals (fun p => drop 1 p)
    [(str "Scripts", mkPlatformStats (str "Scripts") [code_py])]
  = totals_of [code_py]
  /\ summary_grand_totals (fun p => drop 1 p)
       [(str "Scripts", mkPlatformStats (str "Scripts") [blank_py])]
     = totals_zero
  /\ _collect_src_files (fun p => drop 1 p)
       [mkPlatformStats (str "Scripts") [blank_py]] = [blank_py].
Proof.
  intros blank_py code_py. split; [|split; reflexivity].
  exact (proj2 (summary_grand_totals_spec (fun p => drop 1 p)
                  [(str "Scripts", mkPlatformStats (str "Scripts") [code_py])])
           ltac:(intros item [<-|[]] _; reflexivity)).
Defined.

(** ** The ends of the percentile range *)

Lemma sorted_strongly (xs : list Z) : StronglySorted Z.le (sorted xs).
Proof.
  unfold sorted. apply Sorted_StronglySorted; [apply _|].
  apply Sorted_merge_sort. apply _.
Qed.

Lemma strongly_sorted_last (l : list Z) (x y : Z) :
  StronglySorted Z.le l ->
  In x l -> nth_error l (Nat.pred (length l)) = Some y -> x <= y.
Proof.
  induction 1 as [|a l Hs IH Ha]; [intros []|].
  intros Hx Hy. destruct l as [|b l].
  - cbn in Hy. inversion Hy. subst. destruct Hx as [<-|[]]. lia.
  - cbn [length Nat.pred nth_error] in Hy.
    assert (Hy' : nth_error (b :: l) (Nat.pred (length (b :: l))) = Some y)
      by exact Hy.
    destruct Hx as [<-|Hx]; [|exact (IH Hx Hy')].
    assert (Hin : In y (b :: l)) by (eapply nth_error_In, Hy').
    rewrite List.Forall_forall in Ha. apply Ha, Hin.
Qed.

Lemma strongly_sorted_first (l : list Z) (x y : Z) :
  StronglySorted Z.le l -> In x l -> nth_error l 0 = Some y -> y <= x.
Proof.
  intros Hs Hx Hy. destruct l as [|a l]; [destruct Hx|].
  cbn in Hy. inversion Hy. subst a.
  apply StronglySorted_inv in Hs as [_ Hh].
  destruct Hx as [<-|Hx]; [lia|].
  rewrite List.Forall_forall in Hh. apply Hh, Hx.
Qed.

Lemma getitem_nth (xs : list Z) (j y : Z) :
  0 <= j <= len xs - 1 ->
  getitem xs j = Ok y -> nth_error xs (Z.to_nat j) = Some y.
Proof.
  intros Hj. unfold getitem. cbv zeta.
  assert (H1 : (j <? 0) = false) by (apply Z.ltb_ge; lia).
  assert (H2 : (len xs <=? j) = false) by (apply Z.leb_gt; lia).
  rewrite H1. rewrite H1, H2. cbn [orb].
  destruct (nth_error xs (Z.to_nat j));
    [intros E; inversion E; reflexivity | discriminate].
Qed.

Lemma raw_index_zero (n : Z) : raw_index n (PyInt 0) = Ok 0.
Proof. unfold raw_index, int_mul. cbn [bind]. rewrite Z.mul_0_r. reflexivity. Qed.

(** X19. On a platform with files, [percentile(0)] is the length of the
    shortest file; whenever the index [int(len * p / 100)] reaches
    [len - 1] or more the percentile is the length of the longest file; and
    an index below [-len], which a negative [p] can give, raises
    [IndexError]. *)
Theorem percentile_extremes (ps : PlatformStats) :
  files ps <> [] ->
  PlatformStats.percentile ps (PyInt 0) = Ok (min_file_length ps)
  /\ (forall p i, raw_index (len (files ps)) p = Ok i ->
        len (files ps) - 1 <= i ->
        PlatformStats.percentile ps p = Ok (max_file_length ps))
  /\ (forall p i, raw_index (len (files ps)) p = Ok i ->
        i < - len (files ps) ->
        PlatformStats.percentile ps p = Raise IndexError).
Proof.
  intros Hne.
  unfold PlatformStats.percentile, PlatformStats.file_lengths,
    min_file_length, max_file_length.
  set (xs := map total_lines (files ps)).
  assert (Hxs : xs <> []) by (unfold xs; destruct (files ps); [congruence | discriminate]).
  assert (Hlen : len (sorted xs) = len (files ps)).
  { rewrite len_sorted. unfold xs, len. rewrite length_map. reflexivity. }
  assert (Hpos : 1 <= len (files ps)) by (apply len_pos, Hne).
  assert (Hnil : is_nil (sorted xs) = false).
  { destruct (sorted xs) as [|h t] eqn:E; [|reflexivity]. exfalso.
    unfold len in *. cbn [length] in *. lia. }
  rewrite Hnil, Hlen.
  pose proof (sorted_strongly xs) as Hs.
  pose proof (sorted_perm xs) as Hp.
  destruct xs as [|x0 xs'] eqn:Exs; [congruence|].
  destruct (fold_min_spec xs' x0) as (Hmin_in & Hmin_le & Hmin_all).
  destruct (fold_max_spec xs' x0) as (Hmax_in & Hmax_le & Hmax_all).
  cbn [min_default max_default].
  assert (Hmin_mem : In (fold_left Z.min xs' x0) (x0 :: xs'))
    by (destruct Hmin_in as [->|H]; [left; reflexivity | right; exact H]).
  assert (Hmax_mem : In (fold_left Z.max xs' x0) (x0 :: xs'))
    by (destruct Hmax_in as [->|H]; [left; reflexivity | right; exact H]).
  assert (Hmin_lb : forall x, In x (x0 :: xs') -> fold_left Z.min xs' x0 <= x)
    by (intros x [<-|H]; [exact Hmin_le | apply Hmin_all, H]).
  assert (Hmax_ub : forall x, In x (x0 :: xs') -> x <= fold_left Z.max xs' x0)
    by (intros x [<-|H]; [exact Hmax_le | apply Hmax_all, H]).
  split; [|split].
  - rewrite raw_index_zero. cbn [bind].
    replace (Z.min 0 (len (files ps) - 1)) with 0 by lia.
    destruct (getitem_in_range (sorted (x0 :: xs')) 0) as (y & Ey & Hy);
      [lia|].
    rewrite Ey. f_equal.
    assert (Hy' : In y (x0 :: xs')) by (apply (Permutation_in _ Hp), Hy).
    apply Z.le_antisymm; [|apply Hmin_lb, Hy'].
    apply (strongly_sorted_first (sorted (x0 :: xs'))); [exact Hs | |].
    + apply (Permutation_in _ (Permutation_sym Hp)), Hmin_mem.
    + apply (getitem_nth _ 0); [lia | exact Ey].
  - intros p i E Hi. rewrite E. cbn [bind].
    replace (Z.min i (len (files ps) - 1)) with (len (files ps) - 1) by lia.
    destruct (getitem_in_range (sorted (x0 :: xs')) (len (files ps) - 1))
      as (y & Ey & Hy); [lia|].
    rewrite Ey. f_equal.
    assert (Hy' : In y (x0 :: xs')) by (apply (Permutation_in _ Hp), Hy).
    apply Z.le_antisymm; [apply Hmax_ub, Hy'|].
    apply (strongly_sorted_last (sorted (x0 :: xs'))); [exact Hs | |].
    + apply (Permutation_in _ (Permutation_sym Hp)), Hmax_mem.
    + apply getitem_nth in Ey; [|lia].
      replace (Nat.pred (length (sorted (x0 :: xs'))))
        with (Z.to_nat (len (files ps) - 1)); [exact Ey|].
      unfold len in Hlen |- *. lia.
  - intros p i E Hi. rewrite E. cbn [bind].
    replace (Z.min i (len (files ps) - 1)) with i by lia.
    unfold getitem. cbv zeta. rewrite Hlen.
    assert (H1 : (i <? 0) = true) by (apply Z.ltb_lt; lia).
    assert (H2 : (i + len (files ps) <? 0) = true) by (apply Z.ltb_lt; lia).
    rewrite H1, H2. reflexivity.
Qed.

Lemma percentile_extremes_witness :
  PlatformStats.percentile
    (mkPlatformStats [] [mkFileStats [] 7 5 1 0 1 []; mkFileStats [] 3 3 0 0 0 []])
    (PyInt 0)
  = Ok 3
  /\ PlatformStats.percentile
       (mkPlatformStats [] [mkFileStats [] 7 5 1 0 1 []; mkFileStats [] 3 3 0 0 0 []])
       (PyInt (-500))
     = Raise IndexError.
Proof.
  pose proof (percentile_extremes
                (mkPlatformStats []
                   [mkFileStats [] 7 5 1 0 1 []; mkFileStats [] 3 3 0 0 0 []])
                ltac:(discriminate)) as (H0 & _ & Hneg).
  split; [exact H0|].
  exact (Hneg (PyInt (-500)) (-10) eq_refl eq_refl).
Defined.
